(** * FinOps assistant: token estimator, usage ledger, streaming buffer,
      tool-provider start-up and shutdown

    A shallow embedding of [docker_app/app.py] (the buffered chat page) and
    [docker_app/app_streaming.py] (the streaming chat page).

    Conventions of the embedding.
    - A Python [str] is a [string]; one character of the Rocq string stands
      for one code point, so [String.length] is Python's [len].
    - A Python [float] that holds a token count is integral and is a [Z];
      a [float] that holds money is an exact rational ([Q]), and equalities
      between amounts of money are stated with [==].
    - The literal [3.2] is the binary64 number nearest to 3.2, which is
      [3602879701896397 / 2^50], a little above 16/5.  Python's float floor
      division [n // 3.2] returns the floor of the exact quotient of the two
      doubles; it is modelled by [Qfloor] on that exact quotient.
    - A call that can raise returns an [option]: [None] is "an exception
      leaves the block".  Outcomes of calls into the agent SDK, the tool
      servers and Streamlit are inputs of the model (oracle records). *)

From Stdlib Require Import ZArith QArith Qround Lia Ascii String List.
From stdpp Require Import base option gmap strings list.

Close Scope Q_scope.
Local Open Scope Z_scope.

(** ** Token estimator ([app.py], lines 45-93) *)

Module Estimator.

(** A Python object that is not a [str], as far as the estimator can
    observe it: its truth value and its [str()] rendering. *)
Record pyobj := PyObj { truthy : bool; py_str : string }.

Inductive payload :=
| Text (s : string)
| Obj (o : pyobj).

(** [not text] *)
Definition py_not (p : payload) : bool :=
  match p with
  | Text s => bool_decide (s = EmptyString)
  | Obj o => negb (truthy o)
  end.

(** [str(text)] *)
Definition str (p : payload) : string :=
  match p with
  | Text s => s
  | Obj o => py_str o
  end.

(** [len(s)] *)
Definition len (s : string) : Z := Z.of_nat (String.length s).

(** The double written [3.2] in the source. *)
Definition double_3_2 : Q := 3602879701896397 # (2 ^ 50).

(** [n // 3.2] for an int [n]. *)
Definition floordiv_3_2 (n : Z) : Z := Qfloor (inject_Z n / double_3_2).

Definition estimate_tokens_from_text (text : payload) : Z :=
  if py_not text then 0
  else
    let text_str := str text in
    Z.max 1 (floordiv_3_2 (len text_str)).

(** One entry of a message's [content] list.  A dict entry is seen
    through [json.dumps(item)] and through its ["text"] key, if any. *)
Inductive content_item :=
| ItemDict (json_dumps : string) (text : option string)
| ItemOther (p : payload).

Inductive content :=
| ContentList (items : list content_item)
| ContentOther (p : payload).

(** Usage metrics: a dict from key to token count. *)
Inductive message :=
| MsgDict (role : option payload) (content_ : option content)
          (usage : option (gmap string Z))
| MsgOther (o : pyobj).

Definition item_tokens (item : content_item) : Z :=
  match item with
  | ItemDict dumped _ => estimate_tokens_from_text (Text dumped)
  | ItemOther p => estimate_tokens_from_text (Text (str p))
  end.

(** Body of the [for message in agent_messages] loop, threading
    [total_tokens]. *)
Definition message_step (total_tokens : Z) (m : message) : Z :=
  match m with
  | MsgDict role content_ _ =>
      let total_tokens :=
        total_tokens + estimate_tokens_from_text (default (Text EmptyString) role) in
      match default (ContentOther (Text EmptyString)) content_ with
      | ContentList items =>
          fold_left (fun t item => t + item_tokens item) items total_tokens
      | ContentOther p => total_tokens + estimate_tokens_from_text p
      end
  | MsgOther o => total_tokens + estimate_tokens_from_text (Text (py_str o))
  end.

Definition calculate_conversation_tokens
    (agent_messages : list message) (system_prompt : string) : Z :=
  let total_tokens := 0 in
  let total_tokens := total_tokens + estimate_tokens_from_text (Text system_prompt) in
  fold_left message_step agent_messages total_tokens.

(** *** The estimator as the specification words it *)

Definition ceil_div (a b : Z) : Z := (a + b - 1) / b.

(** [max(1, ceil(length_in_characters / 3.2))], with 3.2 = 32/10. *)
Definition spec_estimate_tokens (s : string) : Z :=
  Z.max 1 (ceil_div (10 * len s) 32).

(** Tokens of one message: role plus content. *)
Definition message_tokens (m : message) : Z := message_step 0 m.

Definition sum_Z (l : list Z) : Z := foldr Z.add 0 l.

End Estimator.

(** ** Session state shared by both pages *)

Module Session.
Import Estimator.

Record BedrockModel := { model_id : string; max_tokens : Z }.

Record SummarizingConversationManager := {
  summary_ratio : Q;
  preserve_recent_messages : Z;
  summarization_system_prompt : string
}.

(** A tool object handed out by a tool server. *)
Record tool := Tool { tool_name : string }.

(** A tool-server client, identified by the server module it launches. *)
Record MCPClient := { server_module : string }.

Record Agent := {
  model : BedrockModel;
  system_prompt : string;
  tools : list tool;
  conversation_manager : SummarizingConversationManager;
  agent_messages : list message
}.

(** A dict with the keys ["role"], ["type"] and ["content"], of which the
    first two may be absent: an entry of [st.session_state.messages] (the
    buffered page sets no ["type"]) or of the streaming output buffer
    (which has no ["role"]). *)
Record entry := {
  role : option string;
  type : option string;
  content : string
}.

(** [st.session_state]: a key that may be absent is an [option]. *)
Record session_state := {
  messages : list entry;
  agent : option Agent;
  billing_mcp_client : option MCPClient;
  aws_api_mcp_client : option MCPClient;
  start_index : Z;
  total_tokens : option Z;
  total_cost : option Q;
  total_requests : option Z;
  output : list entry
}.

Definition set_messages v s :=
  {| messages := v; agent := agent s;
     billing_mcp_client := billing_mcp_client s;
     aws_api_mcp_client := aws_api_mcp_client s;
     start_index := start_index s; total_tokens := total_tokens s;
     total_cost := total_cost s; total_requests := total_requests s;
     output := output s |}.

Definition set_agent v s :=
  {| messages := messages s; agent := v;
     billing_mcp_client := billing_mcp_client s;
     aws_api_mcp_client := aws_api_mcp_client s;
     start_index := start_index s; total_tokens := total_tokens s;
     total_cost := total_cost s; total_requests := total_requests s;
     output := output s |}.

Definition set_billing_mcp_client v s :=
  {| messages := messages s; agent := agent s;
     billing_mcp_client := v;
     aws_api_mcp_client := aws_api_mcp_client s;
     start_index := start_index s; total_tokens := total_tokens s;
     total_cost := total_cost s; total_requests := total_requests s;
     output := output s |}.

Definition set_aws_api_mcp_client v s :=
  {| messages := messages s; agent := agent s;
     billing_mcp_client := billing_mcp_client s;
     aws_api_mcp_client := v;
     start_index := start_index s; total_tokens := total_tokens s;
     total_cost := total_cost s; total_requests := total_requests s;
     output := output s |}.

Definition set_start_index v s :=
  {| messages := messages s; agent := agent s;
     billing_mcp_client := billing_mcp_client s;
     aws_api_mcp_client := aws_api_mcp_client s;
     start_index := v; total_tokens := total_tokens s;
     total_cost := total_cost s; total_requests := total_requests s;
     output := output s |}.

Definition set_totals t c r s :=
  {| messages := messages s; agent := agent s;
     billing_mcp_client := billing_mcp_client s;
     aws_api_mcp_client := aws_api_mcp_client s;
     start_index := start_index s; total_tokens := t;
     total_cost := c; total_requests := r;
     output := output s |}.

Definition set_output v s :=
  {| messages := messages s; agent := agent s;
     billing_mcp_client := billing_mcp_client s;
     aws_api_mcp_client := aws_api_mcp_client s;
     start_index := start_index s; total_tokens := total_tokens s;
     total_cost := total_cost s; total_requests := total_requests s;
     output := v |}.

(** The state of a session before the page has run: only the keys the
    page initialises unconditionally are present. *)
Definition fresh : session_state :=
  {| messages := []; agent := None; billing_mcp_client := None;
     aws_api_mcp_client := None; start_index := 0; total_tokens := None;
     total_cost := None; total_requests := None; output := [] |}.

(** [os.getenv(key, default)] *)
Definition getenv (env : gmap string string) (key dflt : string) : string :=
  default dflt (env !! key).

Definition claude_3_7_sonnet : string :=
  "us.anthropic.claude-3-7-sonnet-20250219-v1:0".

Definition finops_conversation_manager : SummarizingConversationManager :=
  {| summary_ratio := 3 # 10;
     preserve_recent_messages := 15;
     summarization_system_prompt := "Summarize this FinOps conversation" |}.

Definition billing_client : MCPClient :=
  {| server_module := "awslabs.billing_cost_management_mcp_server.server" |}.

Definition aws_api_client : MCPClient :=
  {| server_module := "awslabs.aws_api_mcp_server.server" |}.

(** [Agent(model=..., system_prompt=..., tools=..., conversation_manager=...)] *)
Definition new_Agent (m : BedrockModel) (sp : string) (ts : list tool)
    (cm : SummarizingConversationManager) : Agent :=
  {| model := m; system_prompt := sp; tools := ts;
     conversation_manager := cm; agent_messages := [] |}.

Definition with_messages (msgs : list message) (a : Agent) : Agent :=
  {| model := model a; system_prompt := system_prompt a; tools := tools a;
     conversation_manager := conversation_manager a;
     agent_messages := msgs |}.

(** Truth value of a usage dict that may be [None]. *)
Definition usage_truthy (u : option (gmap string Z)) : bool :=
  match u with
  | Some d => negb (bool_decide (d = ∅))
  | None => false
  end.

(** [usage_metrics.get(key, 0)] *)
Definition get0 (d : gmap string Z) (key : string) : Z :=
  default 0 (d !! key).

End Session.


(** ** A small exception-and-trace monad for code under [try]/[except] *)

Module Exn.
Import Session.

(** What the outside world sees of a computation. *)
Inductive effect :=
| ExitCalled (c : MCPClient)     (* [c.__exit__(None, None, None)] *)
| Printed (msg : string).        (* [print(msg)] *)

(** How a block ends: normally, or with an [Exception] carrying [str(e)]. *)
Inductive outcome (A : Type) :=
| Returned (a : A)
| Raised (e : string).
Arguments Returned {A} a.
Arguments Raised {A} e.

Definition M (A : Type) : Type := list effect * outcome A.

Definition ret {A} (a : A) : M A := ([], Returned a).

Definition bind {A B} (m : M A) (k : A -> M B) : M B :=
  match m with
  | (tr, Returned a) => let '(tr', r) := k a in (tr ++ tr', r)
  | (tr, Raised e) => (tr, Raised e)
  end.

(** [try: body except Exception as e: handler(e)] *)
Definition try_except {A} (body : M A) (handler : string -> M A) : M A :=
  match body with
  | (tr, Returned a) => (tr, Returned a)
  | (tr, Raised e) => let '(tr', r) := handler e in (tr ++ tr', r)
  end.

Definition print (msg : string) : M unit := ([Printed msg], Returned tt).

Definition trace {A} (m : M A) : list effect := fst m.
Definition result {A} (m : M A) : outcome A := snd m.

Notation "m1 ;; m2" := (bind m1 (fun _ => m2))
  (at level 100, m2 at level 200, right associativity).

End Exn.

(** ** The buffered page ([app.py]) *)

Module App.
Import Estimator Session Exn.

(** *** Model, lines 301-311: the model id is a literal. *)
Definition model : BedrockModel :=
  {| model_id := claude_3_7_sonnet; max_tokens := 64000 |}.

(** *** Agent initialisation, lines 330-493 *)

(** How starting one tool server ends. *)
Inductive start_outcome :=
| EnterRaises                 (* [client.__enter__()] raises *)
| ListRaises                  (* [list_tools_sync()] raises, after [__enter__] *)
| Started (ts : list tool).   (* both return; [ts] are the advertised tools.
                                 An exception later in the block changes
                                 nothing: the tools are already added. *)

(** Outcomes of the calls the initialisation makes outside this file. *)
Record startup_oracle := {
  setup_raises : bool;        (* an exception before the tool-loading block *)
  aws_client_raises : bool;   (* [MCPClient(...)] for the AWS API server raises *)
  billing_start : start_outcome;
  aws_api_start : start_outcome;
  report_raises : bool;       (* an exception between start-up and the inner [try] *)
  load_raises : bool          (* an exception inside the inner [try] *)
}.

Definition ascii_lower (c : ascii) : ascii :=
  let n := nat_of_ascii c in
  if (Nat.leb 65 n && Nat.leb n 90)%bool then ascii_of_nat (n + 32) else c.

(** [s.lower()] on ASCII text *)
Fixpoint lower (s : string) : string :=
  match s with
  | EmptyString => EmptyString
  | String c s' => String (ascii_lower c) (lower s')
  end.

(** [os.getenv('ENABLE_AWS_API_SERVER', 'true').lower() == 'true'] *)
Definition enable_aws_api (env : gmap string string) : bool :=
  bool_decide (lower (getenv env "ENABLE_AWS_API_SERVER" "true") = "true").

(** One [try: client.__enter__(); session_state.<key> = client;
    tools = client.list_tools_sync(); all_tools.extend(tools)
    except Exception: ...] block. *)
Definition start_server (c : MCPClient)
    (store : option MCPClient -> session_state -> session_state)
    (o : start_outcome) (st : session_state * list tool)
    : session_state * list tool :=
  match o with
  | EnterRaises => st
  | ListRaises => (store (Some c) (fst st), snd st)
  | Started ts => (store (Some c) (fst st), snd st ++ ts)
  end.

Definition fallback_agent (system_prompt : string) : Agent :=
  new_Agent model system_prompt [] finops_conversation_manager.

Definition initialize_agent (env : gmap string string) (system_prompt : string)
    (o : startup_oracle) (s : session_state) : session_state :=
  match agent s with
  | Some _ => s                                  (* ["agent" in st.session_state] *)
  | None =>
      if setup_raises o then set_agent (Some (fallback_agent system_prompt)) s
      else
        let aws_api_mcp_client :=
          if enable_aws_api env then
            if aws_client_raises o then None else Some aws_api_client
          else None in
        let st := (s, []) in
        let st := start_server billing_client set_billing_mcp_client
                    (billing_start o) st in
        let st :=
          match aws_api_mcp_client with
          | Some c => start_server c set_aws_api_mcp_client (aws_api_start o) st
          | None => st
          end in
        let s := fst st in
        let raw_mcp_tools := snd st in
        if report_raises o then set_agent (Some (fallback_agent system_prompt)) s
        else if load_raises o then
          set_agent (Some (fallback_agent system_prompt)) s
        else
          match raw_mcp_tools with
          | _ :: _ =>
              let mcp_tools := raw_mcp_tools in
              set_agent (Some (new_Agent model system_prompt mcp_tools
                                 finops_conversation_manager)) s
          | [] =>
              set_agent (Some (new_Agent model system_prompt []
                                 finops_conversation_manager)) s
          end
  end.

(** *** Usage ledger and chat handler, lines 541-749 *)

(** The "Reset Stats" button: each of the three keys is deleted. *)
Definition reset_stats (s : session_state) : session_state :=
  set_totals None None None s.

(** Outcome of [st.session_state.agent(prompt)] once it has returned. *)
Record turn_oracle := {
  agent_messages_after : list message;
  agent_usage : option (option (gmap string Z));     (* [hasattr(agent, 'usage')] *)
  response_usage : option (option (gmap string Z))   (* [hasattr(response, 'usage')] *)
}.

(** [for content_item in content: if "text" in content_item: ...; break].
    The outer [None] is an exception; a [str] item holding "text" is
    indexed with a [str], which raises; the test on other non-dict items
    is not modelled and counted as raising. *)
Fixpoint scan_items (items : list content_item) : option (option string) :=
  match items with
  | [] => Some None
  | ItemDict _ (Some t) :: _ => Some (Some t)
  | ItemDict _ None :: rest => scan_items rest
  | ItemOther (Text s) :: rest =>
      match String.index 0 "text" s with
      | Some _ => None
      | None => scan_items rest
      end
  | ItemOther (Obj _) :: _ => None
  end.

Definition is_assistant (role : option payload) : bool :=
  match role with
  | Some (Text r) => bool_decide (r = "assistant")
  | _ => false
  end.

(** Body of [for m in st.session_state.agent.messages], lines 605-616. *)
Definition scan_message (acc : string * option (gmap string Z)) (m : message)
    : option (string * option (gmap string Z)) :=
  match m with
  | MsgOther _ => None                         (* no [.get] *)
  | MsgDict role content_ usage =>
      assistant_response ←
        (if is_assistant role then
           match content_ with
           | Some (ContentList (i :: items)) =>
               found ← scan_items (i :: items);
               Some (default (fst acc) found)
           | Some (ContentList []) | None => Some (fst acc)
           | Some (ContentOther (Text _)) => Some (fst acc)
           | Some (ContentOther (Obj o)) =>
               if truthy o then None else Some (fst acc)
           end
         else Some (fst acc));
      let usage_metrics := if usage_truthy usage then usage else snd acc in
      Some (assistant_response, usage_metrics)
  end.

Fixpoint scan_messages (acc : string * option (gmap string Z))
    (ms : list message) : option (string * option (gmap string Z)) :=
  match ms with
  | [] => Some acc
  | m :: ms' => acc' ← scan_message acc m; scan_messages acc' ms'
  end.

(** Lines 618-626. *)
Definition select_usage (o : turn_oracle) (from_messages : option (gmap string Z))
    : option (gmap string Z) :=
  let usage_metrics := from_messages in
  let usage_metrics := default usage_metrics (agent_usage o) in
  let usage_metrics := default usage_metrics (response_usage o) in
  usage_metrics.

(** Lines 638-640 and 668-670. *)
Definition request_cost (input_tokens output_tokens : Z) : Q :=
  let input_cost := (inject_Z input_tokens / 1000000 * 3)%Q in
  let output_cost := (inject_Z output_tokens / 1000000 * 15)%Q in
  (input_cost + output_cost)%Q.

(** [if "total_tokens" not in st.session_state: ... = 0] *)
Definition ensure_totals (s : session_state) : session_state :=
  match total_tokens s with
  | None => set_totals (Some 0) (Some 0%Q) (Some 0) s
  | Some _ => s
  end.

(** The three [+=]; reading an absent key raises. *)
Definition add_totals (tokens : Z) (cost : Q) (s : session_state)
    : option session_state :=
  t ← total_tokens s;
  c ← total_cost s;
  r ← total_requests s;
  Some (set_totals (Some (t + tokens)) (Some (c + cost)%Q) (Some (r + 1)) s).

(** What one turn charges: the token counts it read or estimated. *)
Definition turn_tokens (system_prompt : string) (agent_messages : list message)
    (assistant_response : string) (usage_metrics : option (gmap string Z))
    : Z * Z :=
  if usage_truthy usage_metrics then
    let d := default ∅ usage_metrics in
    (get0 d "inputTokens", get0 d "outputTokens")
  else
    (calculate_conversation_tokens agent_messages system_prompt,
     estimate_tokens_from_text (Text assistant_response)).

(** Lines 628-690: the [if usage_metrics: ... else: ...] statement.
    Returns the new state and the [usage_metrics] shown afterwards. *)
Definition account_usage (system_prompt : string) (agent_messages : list message)
    (assistant_response : string) (usage_metrics : option (gmap string Z))
    (s : session_state) : option (session_state * gmap string Z) :=
  if usage_truthy usage_metrics then
    let d := default ∅ usage_metrics in
    let input_tokens := get0 d "inputTokens" in
    let output_tokens := get0 d "outputTokens" in
    let total_tokens := input_tokens + output_tokens in
    let total_cost := request_cost input_tokens output_tokens in
    s' ← add_totals total_tokens total_cost (ensure_totals s);
    Some (s', d)
  else
    let estimated_input_tokens :=
      calculate_conversation_tokens agent_messages system_prompt in
    let estimated_output_tokens :=
      estimate_tokens_from_text (Text assistant_response) in
    let estimated_total_tokens :=
      estimated_input_tokens + estimated_output_tokens in
    let estimated_total_cost :=
      request_cost estimated_input_tokens estimated_output_tokens in
    s' ← add_totals estimated_total_tokens estimated_total_cost
           (ensure_totals s);
    Some (s', <["inputTokens" := estimated_input_tokens]>
                (<["outputTokens" := estimated_output_tokens]> ∅)).

(** Lines 725-746: the cost shown under "Request Metrics", if any. *)
Definition request_metrics_cost (usage_metrics : gmap string Z) : option Q :=
  if usage_truthy (Some usage_metrics) then
    if ((0 <? get0 usage_metrics "inputTokens")
        || (0 <? get0 usage_metrics "outputTokens"))%bool then
      let input_cost :=
        (inject_Z (get0 usage_metrics "inputTokens") / 1000000 * 3)%Q in
      let output_cost :=
        (inject_Z (get0 usage_metrics "outputTokens") / 1000000 * 15)%Q in
      let total_request_cost := (input_cost + output_cost)%Q in
      Some total_request_cost
    else None
  else None.

Definition append_message (m : entry) (s : session_state) : session_state :=
  set_messages (messages s ++ [m]) s.

(** The [if prompt := st.chat_input(...)] block, lines 568-749.  [None]:
    an exception left the block.  The second component is the request
    cost shown for this turn. *)
Definition chat_turn (system_prompt prompt : string) (o : turn_oracle)
    (s : session_state) : option (session_state * option Q) :=
  let s := append_message
             {| role := Some "user"; type := None; content := prompt |} s in
  a ← agent s;
  let a := with_messages (agent_messages_after o) a in
  let s := set_agent (Some a) s in
  scanned ← scan_messages (EmptyString, None) (agent_messages a);
  let assistant_response := fst scanned in
  let usage_metrics := select_usage o (snd scanned) in
  accounted ← account_usage system_prompt (agent_messages a)
                assistant_response usage_metrics s;
  let s := fst accounted in
  let usage_metrics := snd accounted in
  let s := append_message
             {| role := Some "assistant"; type := None;
                content := assistant_response |} s in
  let shown := request_metrics_cost usage_metrics in
  let s := set_start_index (Z.of_nat (length (agent_messages a))) s in
  Some (s, shown).

(** The usage one turn charges, as a function of what the agent returned. *)
Definition charged (system_prompt : string) (o : turn_oracle) : option (Z * Z) :=
  scanned ← scan_messages (EmptyString, None) (agent_messages_after o);
  Some (turn_tokens system_prompt (agent_messages_after o) (fst scanned)
          (select_usage o (snd scanned))).

(** A run of chat turns in one session. *)
Fixpoint chat_turns (system_prompt : string) (turns : list (string * turn_oracle))
    (s : session_state) : option session_state :=
  match turns with
  | [] => Some s
  | (prompt, o) :: rest =>
      r ← chat_turn system_prompt prompt o s;
      chat_turns system_prompt rest (fst r)
  end.

(** *** Shutdown, lines 751-769 *)

(** [c.__exit__(None, None, None)]; [exit_raises c = Some e] when it
    raises an [Exception] whose text is [e]. *)
Definition client_exit (exit_raises : MCPClient -> option string)
    (c : MCPClient) : M unit :=
  ([ExitCalled c],
   match exit_raises c with
   | None => Returned tt
   | Some e => Raised e
   end).

Definition cleanup_mcp_clients (exit_raises : MCPClient -> option string)
    (s : session_state) : M unit :=
  (match billing_mcp_client s with
   | Some c =>
       try_except
         (client_exit exit_raises c ;;
          print "Billing MCP client session closed")
         (fun e => print ("Error closing Billing MCP client: " +:+ e))
   | None => ret tt
   end) ;;
  (match aws_api_mcp_client s with
   | Some c =>
       try_except
         (client_exit exit_raises c ;;
          print "AWS API MCP client session closed")
         (fun e => print ("Error closing AWS API MCP client: " +:+ e))
   | None => ret tt
   end).

End App.

(** ** The streaming page ([app_streaming.py]) *)

Module AppStreaming.
Import Estimator Session Exn.

(** *** Model, lines 258-271: the model id comes from the environment. *)
Definition model (env : gmap string string) : BedrockModel :=
  let model_id := getenv env "BEDROCK_MODEL_ID" claude_3_7_sonnet in
  {| model_id := model_id; max_tokens := 8192 |}.

(** *** Agent initialisation, lines 290-422: one tool server only. *)
Record startup_oracle := {
  setup_raises : bool;
  billing_start : App.start_outcome;
  report_raises : bool;
  load_raises : bool
}.

Definition fallback_agent (env : gmap string string) (system_prompt : string)
    : Agent :=
  new_Agent (model env) system_prompt [] finops_conversation_manager.

Definition initialize_agent (env : gmap string string) (system_prompt : string)
    (o : startup_oracle) (s : session_state) : session_state :=
  match agent s with
  | Some _ => s
  | None =>
      if setup_raises o then
        set_agent (Some (fallback_agent env system_prompt)) s
      else
        let st := (s, []) in
        let st := App.start_server billing_client set_billing_mcp_client
                    (billing_start o) st in
        let s := fst st in
        let raw_mcp_tools := snd st in
        if report_raises o then
          set_agent (Some (fallback_agent env system_prompt)) s
        else if load_raises o then
          set_agent (Some (fallback_agent env system_prompt)) s
        else
          match raw_mcp_tools with
          | _ :: _ =>
              let mcp_tools := raw_mcp_tools in
              set_agent (Some (new_Agent (model env) system_prompt mcp_tools
                                 finops_conversation_manager)) s
          | [] =>
              set_agent (Some (new_Agent (model env) system_prompt []
                                 finops_conversation_manager)) s
          end
  end.

(** *** Streaming callback, lines 466-496 *)

(** [kwargs["current_tool_use"]]: [input] is the [str()] of its value. *)
Record tool_use_kw := { name : option string; input : option string }.

(** The keyword arguments of one callback, as far as the handler reads
    them. *)
Record kwargs := {
  data : option string;
  current_tool_use : option tool_use_kw;
  reasoningText : option string
}.

Definition new_item (ty text : string) : entry :=
  {| role := None; type := Some ty; content := text |}.

(** [output_buffer[-1]["content"] += text] *)
Definition extend (text : string) (e : entry) : entry :=
  {| role := role e; type := type e; content := content e +:+ text |}.

(** [if len(output_buffer) == 0 or output_buffer[-1]["type"] != ty:
       output_buffer.append({"type": ty, "content": text})
     else: output_buffer[-1]["content"] += text] *)
Definition add_or_append (ty text : string) (output_buffer : list entry)
    : list entry :=
  match last output_buffer with
  | None => output_buffer ++ [new_item ty text]
  | Some e =>
      if bool_decide (type e = Some ty) then
        alter (extend text) (length output_buffer - 1)%nat output_buffer
      else output_buffer ++ [new_item ty text]
  end.

(** [kwargs["current_tool_use"].get("name")], when truthy. *)
Definition tool_name_of (kw : kwargs) : option string :=
  t ← current_tool_use kw;
  n ← name t;
  if bool_decide (n = EmptyString) then None else Some n.

(** One call of the handler on the shared [output_buffer].  An exception
    in the body is caught by the handler's own [except] and leaves the
    buffer as it was. *)
Definition custom_callback_handler (output_buffer : list entry) (kw : kwargs)
    : list entry :=
  match data kw with
  | Some d => add_or_append "data" d output_buffer
  | None =>
      match tool_name_of kw with
      | Some n =>
          match current_tool_use kw ≫= input with
          | Some i =>
              let tool_use_text :=
                "Using tool: " +:+ n +:+ " with args: " +:+ i in
              output_buffer ++ [new_item "tool_use" tool_use_text]
          | None => output_buffer              (* [KeyError], caught *)
          end
      | None =>
          match reasoningText kw with
          | Some r => add_or_append "reasoning" r output_buffer
          | None => output_buffer
          end
      end
  end.

(** The buffer after the agent has made the callbacks [events]. *)
Definition run_callbacks (events : list kwargs) : list entry :=
  fold_left custom_callback_handler events [].

(** *** Chat handler, lines 451-520.  [events] are the callbacks the
    agent makes before it returns. *)
Definition chat_turn (prompt : string) (events : list kwargs)
    (s : session_state) : option session_state :=
  let s := set_messages
             (messages s ++
                [{| role := Some "user"; type := None; content := prompt |}])
             s in
  let s := set_output [] s in
  _ ← agent s;
  let output_buffer := run_callbacks events in
  let s := set_output output_buffer s in        (* [output_buffer.copy()] *)
  let s := set_messages
             (messages s ++
                map (fun output_item =>
                       {| role := Some "assistant";
                          type := type output_item;
                          content := content output_item |})
                    (output s))
             s in
  Some s.

(** *** Shutdown, lines 522-535 *)
Definition cleanup_mcp_clients (exit_raises : MCPClient -> option string)
    (s : session_state) : M unit :=
  match billing_mcp_client s with
  | Some c =>
      try_except
        (App.client_exit exit_raises c ;;
         print "Billing MCP client session closed")
        (fun e => print ("Error closing Billing MCP client: " +:+ e))
  | None => ret tt
  end.

End AppStreaming.

(** ** Vocabulary of the properties *)

Module Claims.
Import Estimator Session Exn.

(** *** The usage ledger read as three numbers; an absent key reads 0. *)
Definition tokens (s : session_state) : Z := default 0 (total_tokens s).
Definition cost (s : session_state) : Q := default 0%Q (total_cost s).
Definition requests (s : session_state) : Z := default 0 (total_requests s).

(** The three keys are present together or absent together. *)
Definition ledger_consistent (s : session_state) : Prop :=
  match total_tokens s, total_cost s, total_requests s with
  | None, None, None => True
  | Some _, Some _, Some _ => True
  | _, _, _ => False
  end.

(** "The ledger is updated exactly once" between [s] and [s']. *)
Definition updated_once (s s' : session_state) : Prop :=
  requests s' = requests s + 1.

(** Messages of the shape the agent SDK produces: dicts whose content, if
    any, is a list of dicts. *)
Definition dict_item (i : content_item) : bool :=
  match i with
  | ItemDict _ _ => true
  | ItemOther _ => false
  end.

Definition sdk_message (m : message) : bool :=
  match m with
  | MsgDict _ None _ => true
  | MsgDict _ (Some (ContentList items)) _ => forallb dict_item items
  | MsgDict _ (Some (ContentOther _)) _ => false
  | MsgOther _ => false
  end.

(** What a turn charges; (0, 0) if the scan of the messages raised. *)
Definition turn_charge (system_prompt : string) (t : string * App.turn_oracle)
    : Z * Z :=
  default (0, 0) (App.charged system_prompt (snd t)).

Definition sum_tokens (l : list (Z * Z)) : Z :=
  sum_Z (map (fun c => fst c + snd c) l).

Fixpoint sum_cost (l : list (Z * Z)) : Q :=
  match l with
  | [] => 0%Q
  | c :: l' => (App.request_cost (fst c) (snd c) + sum_cost l')%Q
  end.

(** *** The rate table of the specification.  The source has no table:
    its only rates are the two literals of the buffered page, which the
    sidebar attributes to Claude 3.7 Sonnet. *)
Definition rate_table : gmap string (Q * Q) :=
  {[ claude_3_7_sonnet := (3%Q, 15%Q) ]}.

(** Start-up of the model as the specification words it: a model id
    without an entry in the rate table is a [ConfigError] ([None]). *)
Definition spec_startup_model (env : gmap string string)
    : option BedrockModel :=
  let model_id := getenv env "BEDROCK_MODEL_ID" claude_3_7_sonnet in
  match rate_table !! model_id with
  | Some _ => Some {| model_id := model_id; max_tokens := 8192 |}
  | None => None
  end.

(** *** Tool servers *)

Definition start_failed (o : App.start_outcome) : bool :=
  match o with
  | App.Started _ => false
  | _ => true
  end.

Definition tools_of (o : App.start_outcome) : list tool :=
match o with
| App.Started ts => ts
| _ => []
end.

(** The tools the buffered page has collected when it reaches the inner
    [try]: those of the billing server, then those of the AWS API server
    if it is enabled and its client could be created. *)
Definition loaded_tools (env : gmap string string) (o : App.startup_oracle)
    : list tool :=
tools_of (App.billing_start o) ++
(if (App.enable_aws_api env && negb (App.aws_client_raises o))%bool
 then tools_of (App.aws_api_start o) else []).

(** An exception reached one of the two [except] blocks that build the
    fallback agent. *)
Definition init_failed (o : App.startup_oracle) : bool :=
(App.setup_raises o || App.report_raises o || App.load_raises o)%bool.

Definition streaming_init_failed (o : AppStreaming.startup_oracle) : bool :=
(AppStreaming.setup_raises o || AppStreaming.report_raises o
 || AppStreaming.load_raises o)%bool.

(** *** The streaming buffer *)

(** No two neighbours of the same kind, as the specification words it. *)
Definition no_adjacent_same_kind (buf : list entry) : Prop :=
  forall i e1 e2,
    buf !! i = Some e1 -> buf !! S i = Some e2 -> type e1 <> type e2.

(** No two neighbours of the same kind, tool-use entries apart. *)
Definition coalesced (buf : list entry) : Prop :=
  forall i e1 e2,
    buf !! i = Some e1 -> buf !! S i = Some e2 -> type e1 = type e2 ->
    type e1 = Some "tool_use".

(** *** Sample inputs *)

(** A session whose agent was created without tools. *)
Definition ready : session_state :=
  set_agent (Some (App.fallback_agent "You are a FinOps AI Assistant")) fresh.

Definition tool_event (n i : string) : AppStreaming.kwargs :=
  {| AppStreaming.data := None;
     AppStreaming.current_tool_use :=
       Some {| AppStreaming.name := Some n; AppStreaming.input := Some i |};
     AppStreaming.reasoningText := None |}.

Definition data_event (d : string) : AppStreaming.kwargs :=
  {| AppStreaming.data := Some d;
     AppStreaming.current_tool_use := None;
     AppStreaming.reasoningText := None |}.

Definition reasoning_event (r : string) : AppStreaming.kwargs :=
  {| AppStreaming.data := None;
     AppStreaming.current_tool_use := None;
     AppStreaming.reasoningText := Some r |}.

(** A message with one text block; [dumped] is its [json.dumps]. *)
Definition text_message (role dumped text : string)
    (usage : option (gmap string Z)) : message :=
  MsgDict (Some (Text role)) (Some (ContentList [ItemDict dumped (Some text)]))
    usage.

End Claims.

(** ** The sidebar of the buffered page ([app.py], lines 500-559) *)

Module Sidebar.
Import Estimator Session.

(** [a > b] on money *)
Definition Qgt_bool (a b : Q) : bool := negb (Qle_bool a b).

Record projection := {
  daily_projection : Q;
  monthly_projection : Q
}.

(** The message about the length of the conversation. *)
Inductive notice :=
| LongConversation (conversation_length : Z)    (* [st.warning] *)
| ConsiderFresh (conversation_length : Z).      (* [st.info] *)

(** What the "Usage & Costs" section shows once there are requests. *)
Record usage_panel := {
  shown_requests : Z;
  shown_tokens : Z;
  shown_cost : Q;
  avg_cost : Q;
  shown_projection : option projection;
  shown_notice : option notice
}.

(** Lines 532-537. *)
Definition conversation_notice (s : session_state) : option notice :=
  match agent s with
  | Some a =>
      let conversation_length := Z.of_nat (length (agent_messages a)) in
      if 20 <? conversation_length then
        Some (LongConversation conversation_length)
      else if 10 <? conversation_length then
        Some (ConsiderFresh conversation_length)
      else None
  | None => None
  end.

(** Lines 505-539.  The outer [None] is an exception (an absent key is
    read); the inner [None] is the placeholder "Usage metrics will appear
    after your first query". *)
Definition usage_section (s : session_state) : option (option usage_panel) :=
  match total_requests s with
  | Some total_requests =>
      if 0 <? total_requests then
        total_tokens ← total_tokens s;
        total_cost ← total_cost s;
        let avg_cost := (total_cost / inject_Z total_requests)%Q in
        if Qgt_bool total_cost 0 then
          let requests_per_hour := total_requests in
          let daily_projection :=
            (total_cost * 24 / inject_Z (Z.max 1 requests_per_hour))%Q in
          let monthly_projection := (daily_projection * 30)%Q in
          Some (Some {| shown_requests := total_requests;
                        shown_tokens := total_tokens;
                        shown_cost := total_cost;
                        avg_cost := avg_cost;
                        shown_projection :=
                          Some {| daily_projection := daily_projection;
                                  monthly_projection := monthly_projection |};
                        shown_notice := conversation_notice s |})
        else
          Some (Some {| shown_requests := total_requests;
                        shown_tokens := total_tokens;
                        shown_cost := total_cost;
                        avg_cost := avg_cost;
                        shown_projection := None;
                        shown_notice := None |})
      else Some None
  | None => Some None
  end.

(** The "Fresh Chat" button, lines 552-559; the button of the streaming
    page ([app_streaming.py], lines 433-440) has the same body. *)
Definition fresh_chat (s : session_state) : session_state :=
  let s := set_messages [] s in
  let s :=
    match agent s with
    | Some a => set_agent (Some (with_messages [] a)) s
    | None => s
    end in
  set_start_index 0 s.

End Sidebar.

(** ** The environment handed to the tool servers ([app.py], lines
    334-352; [app_streaming.py], lines 294-312) *)

Module McpEnv.
Import Session.

(** [Config.DEPLOYMENT_REGION] *)
Definition region : string := "us-east-1".

(** [assumed_role['Credentials']], with the three keys the page reads. *)
Record credentials := {
  AccessKeyId : string;
  SecretAccessKey : string;
  SessionToken : string
}.

(** Truth value of [os.getenv(key)]. *)
Definition getenv_truthy (environ : gmap string string) (key : string) : bool :=
  match environ !! key with
  | Some v => negb (bool_decide (v = EmptyString))
  | None => false
  end.

(** Body of [for aws_env_var in [...]]: [if os.getenv(aws_env_var):
    mcp_env[aws_env_var] = os.getenv(aws_env_var)]. *)
Definition pass_through (environ mcp_env : gmap string string)
    (aws_env_var : string) : gmap string string :=
  if getenv_truthy environ aws_env_var then
    match environ !! aws_env_var with
    | Some v => <[aws_env_var := v]> mcp_env
    | None => mcp_env
    end
  else mcp_env.

Definition mcp_env (environ : gmap string string)
    (assumed_role_credentials : option credentials) : gmap string string :=
  let mcp_env := environ in                              (* [os.environ.copy()] *)
  let mcp_env :=
    <["AWS_REGION" := getenv environ "AWS_DEFAULT_REGION" region]>
      (<["FASTMCP_LOG_LEVEL" := "ERROR"]> mcp_env) in
  match assumed_role_credentials with
  | Some c =>
      <["AWS_SESSION_TOKEN" := SessionToken c]>
        (<["AWS_SECRET_ACCESS_KEY" := SecretAccessKey c]>
           (<["AWS_ACCESS_KEY_ID" := AccessKeyId c]> mcp_env))
  | None =>
      fold_left (pass_through environ)
        ["AWS_ACCESS_KEY_ID"; "AWS_SECRET_ACCESS_KEY"; "AWS_SESSION_TOKEN"]
        mcp_env
  end.

End McpEnv.

(** ** What the streaming page draws ([app_streaming.py], lines 17-48,
    443-449 and 508-515) *)

Module StreamingDisplay.
Import Session.

(** Lines 17-24: both paths return the argument; the substitutions below
    line 24 are never reached. *)
Definition clean_markdown_text (text : string) : string := text.

Inductive widget :=
| Markdown (body : string)      (* [st.markdown] *)
| Code (body : string).         (* [st.code] *)

(** Body of [for message in st.session_state.messages], lines 443-449:
    the chat bubble's role and what is drawn in it.  [None]: the message
    has no ["role"]. *)
Definition display_message (message : entry) : option (string * widget) :=
  r ← role message;
  Some (r,
        if bool_decide (type message = Some "tool_use") then
          Code (content message)
        else Markdown (clean_markdown_text (content message))).

Definition display_messages (ms : list entry) : option (list (string * widget)) :=
  mapM display_message ms.

(** Body of [for item in output_buffer], lines 509-515.  [None]: the item
    has no ["type"]. *)
Definition display_item (item : entry) : option (list widget) :=
  ty ← type item;
  Some (if bool_decide (ty = "data") then
          [Markdown (clean_markdown_text (content item))]
        else if bool_decide (ty = "tool_use") then [Code (content item)]
        else if bool_decide (ty = "reasoning") then [Markdown (content item)]
        else []).

Definition display_output (output_buffer : list entry) : option (list widget) :=
  drawn ← mapM display_item output_buffer;
  Some (List.concat drawn).

End StreamingDisplay.

(** ** Further vocabulary *)

Module Observations.
Import Estimator Session Exn.

(** The clients whose [__exit__] a trace calls, in order. *)
Definition exits (tr : list effect) : list MCPClient :=
  omap (fun e => match e with ExitCalled c => Some c | Printed _ => None end) tr.

(** The clients a session has stored, billing first. *)
Definition stored_clients (s : session_state) : list MCPClient :=
  option_list (billing_mcp_client s) ++ option_list (aws_api_mcp_client s).

(** The text a message makes the assistant's response, if any. *)
Definition answers (m : message) : option string :=
  match m with
  | MsgDict role (Some (ContentList items)) _ =>
      if App.is_assistant role then mjoin (App.scan_items items) else None
  | _ => None
  end.

(** The usage metrics a message reports, if truthy. *)
Definition reported (m : message) : option (gmap string Z) :=
  match m with
  | MsgDict _ _ usage => if usage_truthy usage then usage else None
  | MsgOther _ => None
  end.

Definition join (l : list string) : string := foldr String.append EmptyString l.

(** The texts of the buffer entries of one kind, in order. *)
Definition contents_of (ty : string) (buf : list entry) : list string :=
  content <$> filter (fun e => type e = Some ty) buf.

(** The line a callback adds for a tool use, if it adds one. *)
Definition tool_line (kw : AppStreaming.kwargs) : option string :=
  match AppStreaming.data kw with
  | Some _ => None
  | None =>
      n ← AppStreaming.tool_name_of kw;
      i ← AppStreaming.current_tool_use kw ≫= AppStreaming.input;
      Some ("Using tool: " +:+ n +:+ " with args: " +:+ i)
  end.

(** The reasoning fragment a callback records, if it records one. *)
Definition reasoning_fragment (kw : AppStreaming.kwargs) : option string :=
  match AppStreaming.data kw, AppStreaming.tool_name_of kw with
  | None, None => AppStreaming.reasoningText kw
  | _, _ => None
  end.

(** The fragment a callback records, if any: its kind and its text. *)
Definition recorded (kw : AppStreaming.kwargs) : option (string * string) :=
  match AppStreaming.data kw with
  | Some d => Some ("data", d)
  | None =>
      match AppStreaming.tool_name_of kw with
      | Some n =>
          i ← AppStreaming.current_tool_use kw ≫= AppStreaming.input;
          Some ("tool_use", "Using tool: " +:+ n +:+ " with args: " +:+ i)
      | None =>
          r ← AppStreaming.reasoningText kw;
          Some ("reasoning", r)
      end
  end.

(** *** The buffer as a list of runs.  Read from the left, a fragment
    opens a new entry unless it is text data or reasoning and the entry
    that follows it is of its kind, in which case its text goes in front
    of that entry's. *)

(** Kinds whose consecutive fragments are joined. *)
Definition mergeable (ty : string) : bool := negb (bool_decide (ty = "tool_use")).

Definition prepend (text : string) (e : entry) : entry :=
  {| role := role e; type := type e; content := text +:+ content e |}.

Definition cons_fragment (f : string * string) (buf : list entry) : list entry :=
  match buf with
  | e :: es =>
      if (mergeable (fst f) && bool_decide (type e = Some (fst f)))%bool
      then prepend (snd f) e :: es
      else AppStreaming.new_item (fst f) (snd f) :: e :: es
  | [] => [AppStreaming.new_item (fst f) (snd f)]
  end.

Fixpoint spec_coalesce (fragments : list (string * string)) : list entry :=
  match fragments with
  | [] => []
  | f :: rest => cons_fragment f (spec_coalesce rest)
  end.

(** What recording the fragment [f] does to the end of a buffer. *)
Definition snoc_fragment (f : string * string) (buf : list entry) : list entry :=
  if mergeable (fst f) then AppStreaming.add_or_append (fst f) (snd f) buf
  else buf ++ [AppStreaming.new_item (fst f) (snd f)].

(** [client.__enter__()] returned. *)
Definition entered (o : App.start_outcome) : bool :=
  match o with
  | App.EnterRaises => false
  | App.ListRaises | App.Started _ => true
  end.

(** The kinds of entry the streaming callback writes. *)
Definition known_kind (e : entry) : Prop :=
  role e = None /\
  (type e = Some "data" \/ type e = Some "tool_use" \/ type e = Some "reasoning").

(** [e'] is [e] with text added at the end. *)
Definition grown (e e' : entry) : Prop :=
  role e' = role e /\ type e' = type e /\
  exists t, content e' = content e +:+ t.

(** [buf'] holds everything [buf] holds, in place: no entry is lost,
    every entry keeps its kind and the beginning of its text, and all
    entries but the last of [buf] are unchanged. *)
Definition extends (buf buf' : list entry) : Prop :=
  (length buf <= length buf')%nat /\
  (forall i e, buf !! i = Some e -> exists e', buf' !! i = Some e' /\ grown e e') /\
  (forall i, (S i < length buf)%nat -> buf' !! i = buf !! i).

(** The chat-history entry made from a buffer entry. *)
Definition as_assistant (output_item : entry) : entry :=
  {| role := Some "assistant"; type := type output_item;
     content := content output_item |}.

(** The ledger is whole and [start_index] counts the agent's messages. *)
Definition page_invariant (s : session_state) : Prop :=
  Claims.ledger_consistent s /\
  start_index s =
    match agent s with
    | Some a => Z.of_nat (length (agent_messages a))
    | None => 0
    end.

End Observations.

(** * Properties *)

(** ** The estimator *)

Module EstimatorFacts.
Import Estimator.

Lemma floordiv_3_2_Z n :
  floordiv_3_2 n = (n * 2 ^ 50) / 3602879701896397.
Proof.
  unfold floordiv_3_2, double_3_2, Qfloor, Qdiv, Qmult, Qinv, inject_Z.
  cbn [Qnum Qden]. reflexivity.
Qed.

(** Because the double 3.2 exceeds 16/5 by 2^-50 / 5, the float floor
    division lands one below the quotient by 16/5 at every multiple of
    16, and on its floor elsewhere: in both cases on (5n - 1) div 16. *)
Lemma floordiv_3_2_closed n :
  0 < n <= 2 ^ 50 -> floordiv_3_2 n = (5 * n - 1) / 16.
Proof.
  intros Hn. rewrite floordiv_3_2_Z.
  change (2 ^ 50) with 1125899906842624 in *.
  pose proof (Z.div_mod (5 * n - 1) 16 ltac:(lia)) as Hqr.
  pose proof (Z.mod_pos_bound (5 * n - 1) 16 ltac:(lia)) as Hr.
  set (q := (5 * n - 1) / 16) in *.
  set (r := (5 * n - 1) mod 16) in *.
  symmetry.
  apply (Z.div_unique_pos _ _ q (n * 1125899906842624 - 3602879701896397 * q));
    lia.
Qed.

Lemma ceil_div_32 n : ceil_div (10 * n) 32 = (5 * n - 1) / 16 + 1.
Proof.
  unfold ceil_div.
  pose proof (Z.div_mod (5 * n - 1) 16 ltac:(lia)) as Hqr.
  pose proof (Z.mod_pos_bound (5 * n - 1) 16 ltac:(lia)) as Hr.
  set (q := (5 * n - 1) / 16) in *.
  set (r := (5 * n - 1) mod 16) in *.
  symmetry.
  apply (Z.div_unique_pos _ _ (q + 1) (2 * r + 1)); lia.
Qed.

Lemma len_pos s : s <> EmptyString -> 0 < len s.
Proof. destruct s; [congruence|]. unfold len. cbn. lia. Qed.

Lemma estimate_text s :
  estimate_tokens_from_text (Text s) =
  if bool_decide (s = EmptyString) then 0 else Z.max 1 (floordiv_3_2 (len s)).
Proof. reflexivity. Qed.

(** The accumulating loops are sums. *)
Lemma fold_items_sum items t :
  fold_left (fun t item => t + item_tokens item) items t =
  t + sum_Z (map item_tokens items).
Proof.
  revert t. induction items as [|i items IH]; intros t; cbn.
  - lia.
  - rewrite IH. unfold sum_Z. lia.
Qed.

Lemma message_step_shift t m : message_step t m = t + message_tokens m.
Proof.
  unfold message_tokens. destruct m as [role c u|o]; cbn.
  - destruct (default (ContentOther (Text EmptyString)) c).
    + rewrite !fold_items_sum. lia.
    + lia.
  - lia.
Qed.

Lemma fold_messages_sum ms t :
  fold_left message_step ms t = t + sum_Z (map message_tokens ms).
Proof.
  revert t. induction ms as [|m ms IH]; intros t; cbn.
  - lia.
  - rewrite IH, message_step_shift. unfold sum_Z. lia.
Qed.

Lemma conversation_tokens_sum ms sp :
  calculate_conversation_tokens ms sp =
  estimate_tokens_from_text (Text sp) + sum_Z (map message_tokens ms).
Proof. unfold calculate_conversation_tokens. rewrite fold_messages_sum. lia. Qed.

Lemma message_tokens_list role items u :
  message_tokens (MsgDict role (Some (ContentList items)) u) =
  estimate_tokens_from_text (default (Text EmptyString) role)
  + sum_Z (map item_tokens items).
Proof. unfold message_tokens. cbn. rewrite fold_items_sum. lia. Qed.

(** C1, as stated, fails: on the four-character text "abcd" the source
    computes [max(1, 4 // 3.2) = 1], while the ceiling of 4 / 3.2 = 1.25
    is 2. *)
Lemma estimate_tokens_not_ceiling :
  estimate_tokens_from_text (Text "abcd") = 1 /\
  spec_estimate_tokens "abcd" = 2 /\
  estimate_tokens_from_text (Text "abcd") <> spec_estimate_tokens "abcd".
Proof. repeat split; vm_compute; congruence. Qed.

(** C1, amended: the estimate of a text is 0 when it is empty and
    otherwise [max(1, len // 3.2)], a floor: for texts of up to 2^50
    characters it is [max(1, (5 * len - 1) div 16)], which from four
    characters on is exactly one less than the ceiling of len / 3.2.  The
    conversation estimate is the estimate of the system prompt plus, per
    message, the estimate of the role and of the content, where every item
    of a content list is serialised as a whole and the per-item estimates
    are added. *)
Theorem estimate_tokens_floor :
  (forall s,
     estimate_tokens_from_text (Text s) =
     if bool_decide (s = EmptyString) then 0
     else Z.max 1 (Qfloor (inject_Z (len s) / double_3_2))) /\
  (forall s, s <> EmptyString -> len s <= 2 ^ 50 ->
     estimate_tokens_from_text (Text s) = Z.max 1 ((5 * len s - 1) / 16)) /\
  (forall s, 4 <= len s <= 2 ^ 50 ->
     estimate_tokens_from_text (Text s) = spec_estimate_tokens s - 1) /\
  (forall ms sp,
     calculate_conversation_tokens ms sp =
     estimate_tokens_from_text (Text sp) + sum_Z (map message_tokens ms)) /\
  (forall role items u,
     message_tokens (MsgDict role (Some (ContentList items)) u) =
     estimate_tokens_from_text (default (Text EmptyString) role)
     + sum_Z (map item_tokens items)).
Proof.
  split; [|split; [|split; [|split]]].
  - intros s. apply estimate_text.
  - intros s Hs Hlen. rewrite estimate_text.
    rewrite bool_decide_eq_false_2 by exact Hs.
    rewrite floordiv_3_2_closed; [reflexivity|].
    split; [apply len_pos; exact Hs | exact Hlen].
  - intros s [Hlo Hhi]. rewrite estimate_text.
    assert (Hs : s <> EmptyString).
    { intros ->. unfold len in Hlo. cbn in Hlo. lia. }
    rewrite bool_decide_eq_false_2 by exact Hs.
    rewrite floordiv_3_2_closed by lia.
    unfold spec_estimate_tokens. rewrite ceil_div_32.
    assert (1 <= (5 * len s - 1) / 16).
    { apply Z.div_le_lower_bound; lia. }
    lia.
  - apply conversation_tokens_sum.
  - apply message_tokens_list.
Qed.

Lemma estimate_tokens_floor_witness :
  estimate_tokens_from_text (Text "what did I spend")
  = Z.max 1 ((5 * len "what did I spend" - 1) / 16) /\
  estimate_tokens_from_text (Text "what did I spend")
  = spec_estimate_tokens "what did I spend" - 1.
Proof.
  split.
  - apply (proj1 (proj2 estimate_tokens_floor));
      [discriminate | vm_compute; discriminate].
  - apply (proj1 (proj2 (proj2 estimate_tokens_floor))).
    split; vm_compute; discriminate.
Defined.

(** C8: the estimate is a function of the text alone (indeed of its
    length alone), it is 0 on the empty text and at least 1 on every other
    text. *)
Theorem estimate_tokens_deterministic :
  (forall s1 s2, s1 = s2 ->
     estimate_tokens_from_text (Text s1) = estimate_tokens_from_text (Text s2)) /\
  (forall s1 s2, String.length s1 = String.length s2 ->
     estimate_tokens_from_text (Text s1) = estimate_tokens_from_text (Text s2)) /\
  estimate_tokens_from_text (Text EmptyString) = 0 /\
  (forall s, s <> EmptyString -> 1 <= estimate_tokens_from_text (Text s)).
Proof.
  split; [|split; [|split]].
  - intros s1 s2 ->. reflexivity.
  - intros s1 s2 Hlen. rewrite !estimate_text. unfold len. rewrite Hlen.
    destruct s1, s2; cbn in Hlen; try discriminate; reflexivity.
  - reflexivity.
  - intros s Hs. rewrite estimate_text.
    rewrite bool_decide_eq_false_2 by exact Hs. lia.
Qed.

Lemma estimate_tokens_deterministic_witness :
  estimate_tokens_from_text (Text "cost") = estimate_tokens_from_text (Text "bill") /\
  1 <= estimate_tokens_from_text (Text "a").
Proof.
  pose proof estimate_tokens_deterministic as (_ & H2 & _ & H4).
  split.
  - apply H2. reflexivity.
  - apply H4. discriminate.
Defined.

End EstimatorFacts.

(** ** The usage ledger *)

Module LedgerFacts.
Import Estimator Session Claims.

Lemma scan_items_dicts items :
  forallb dict_item items = true -> is_Some (App.scan_items items).
Proof.
  induction items as [|i items IH]; cbn; intros H.
  - eauto.
  - destruct i as [dumped [t|]|p]; cbn in H; try discriminate; eauto.
Qed.

Lemma scan_message_sdk acc m :
  sdk_message m = true -> is_Some (App.scan_message acc m).
Proof.
  destruct m as [role [[items|p]|] u|o]; cbn; intros H; try discriminate.
  - destruct (App.is_assistant role); cbn; [|eauto].
    destruct items as [|i items]; cbn; [eauto|].
    destruct (scan_items_dicts (i :: items) H) as [found Hfound].
    cbn in Hfound. rewrite Hfound. cbn. eauto.
  - destruct (App.is_assistant role); cbn; eauto.
Qed.

Lemma scan_messages_sdk ms acc :
  forallb sdk_message ms = true -> is_Some (App.scan_messages acc ms).
Proof.
  revert acc. induction ms as [|m ms IH]; cbn; intros acc H.
  - eauto.
  - apply andb_prop in H as [Hm Hms].
    destruct (scan_message_sdk acc m Hm) as [acc' Hacc'].
    rewrite Hacc'. cbn. apply IH, Hms.
Qed.

(** One pass through the [if usage_metrics: ... else: ...] statement. *)
Lemma account_usage_once sp ms resp um s :
  ledger_consistent s ->
  exists s' shown,
    App.account_usage sp ms resp um s = Some (s', shown) /\
    requests s' = requests s + 1 /\
    tokens s' =
      tokens s + (fst (App.turn_tokens sp ms resp um)
                  + snd (App.turn_tokens sp ms resp um)) /\
    (cost s' ==
       cost s + App.request_cost (fst (App.turn_tokens sp ms resp um))
                  (snd (App.turn_tokens sp ms resp um)))%Q /\
    ledger_consistent s' /\
    agent s' = agent s /\ messages s' = messages s /\
    App.request_metrics_cost shown =
      (if ((0 <? fst (App.turn_tokens sp ms resp um))
           || (0 <? snd (App.turn_tokens sp ms resp um)))%bool
       then Some (App.request_cost (fst (App.turn_tokens sp ms resp um))
                    (snd (App.turn_tokens sp ms resp um)))
       else None).
Proof.
  unfold ledger_consistent, App.account_usage, App.turn_tokens,
    App.ensure_totals, App.add_totals, requests, tokens, cost.
  intros Hs.
  destruct (usage_truthy um) eqn:Hum;
    destruct (total_tokens s) as [t|] eqn:Ht,
             (total_cost s) as [c|] eqn:Hc,
             (total_requests s) as [r|] eqn:Hr;
    try contradiction; cbn; rewrite ?Ht, ?Hc, ?Hr; cbn;
    eexists _, _; (split; [reflexivity|]); cbn;
    repeat match goal with
           | |- _ /\ _ => split
           end;
    try reflexivity; try lia; try exact I; try (ring_simplify; reflexivity).
  all: unfold App.request_metrics_cost.
  all: try (destruct um as [d|]; [|discriminate Hum]; cbn;
            cbn in Hum; rewrite Hum; reflexivity).
  all: unfold usage_truthy, get0; cbn.
  all: rewrite ?lookup_insert_eq, ?lookup_insert_ne, ?lookup_insert_eq by done.
  all: cbn; reflexivity.
Qed.

Lemma chat_turn_once sp prompt o s :
  is_Some (agent s) -> ledger_consistent s ->
  forallb sdk_message (App.agent_messages_after o) = true ->
  exists s' shown resp um0,
    App.chat_turn sp prompt o s = Some (s', shown) /\
    App.scan_messages (EmptyString, None) (App.agent_messages_after o)
      = Some (resp, um0) /\
    let charge := App.turn_tokens sp (App.agent_messages_after o) resp
                    (App.select_usage o um0) in
    requests s' = requests s + 1 /\
    tokens s' = tokens s + (fst charge + snd charge) /\
    (cost s' == cost s + App.request_cost (fst charge) (snd charge))%Q /\
    ledger_consistent s' /\ is_Some (agent s') /\
    shown = (if ((0 <? fst charge) || (0 <? snd charge))%bool
             then Some (App.request_cost (fst charge) (snd charge))
             else None).
Proof.
  intros [a Ha] Hs Hms.
  destruct (scan_messages_sdk (App.agent_messages_after o) (EmptyString, None) Hms)
    as [[resp um0] Hscan].
  unfold App.chat_turn. cbn. rewrite Ha. cbn. rewrite Hscan. cbn.
  set (s1 := set_agent _ _).
  destruct (account_usage_once sp (App.agent_messages_after o) resp
              (App.select_usage o um0) s1 Hs)
    as (s2 & shown & Hacc & Hreq & Htok & Hcost & Hcons & Hagent & _ & Hshown).
  rewrite Hacc. cbn.
  exists (set_start_index
            (Z.of_nat (length (App.agent_messages_after o)))
            (App.append_message
               {| role := Some "assistant"; type := None; content := resp |} s2)),
    (App.request_metrics_cost shown), resp, um0.
  split; [reflexivity|]. split; [reflexivity|]. cbn.
  repeat split; try assumption.
  rewrite Hagent. subst s1. cbn. eauto.
Qed.

Lemma charged_scan sp o resp um0 :
  App.scan_messages (EmptyString, None) (App.agent_messages_after o)
    = Some (resp, um0) ->
  App.charged sp o =
  Some (App.turn_tokens sp (App.agent_messages_after o) resp
          (App.select_usage o um0)).
Proof. intros H. unfold App.charged. rewrite H. reflexivity. Qed.

Lemma chat_turns_sum sp turns :
  forall s,
    is_Some (agent s) -> ledger_consistent s ->
    Forall (fun t => forallb sdk_message (App.agent_messages_after (snd t)) = true)
      turns ->
    exists s',
      App.chat_turns sp turns s = Some s' /\
      tokens s' = tokens s + sum_tokens (map (turn_charge sp) turns) /\
      (cost s' == cost s + sum_cost (map (turn_charge sp) turns))%Q /\
      requests s' = requests s + Z.of_nat (length turns).
Proof.
  induction turns as [|[prompt o] turns IH]; intros s Ha Hs Hall.
  - exists s. cbn. repeat split; try lia. ring.
  - apply Forall_cons in Hall as [Ho Hall]. cbn in Ho.
    destruct (chat_turn_once sp prompt o s Ha Hs Ho)
      as (s1 & shown & resp & um0 & Hturn & Hscan & Hreq & Htok & Hcost
          & Hcons & Hagent & _).
    destruct (IH s1 Hagent Hcons Hall) as (s' & Hrun & Htok' & Hcost' & Hreq').
    exists s'. cbn [App.chat_turns]. rewrite Hturn. cbn.
    split; [exact Hrun|].
    assert (Hcharge : turn_charge sp (prompt, o) =
              App.turn_tokens sp (App.agent_messages_after o) resp
                (App.select_usage o um0)).
    { unfold turn_charge. cbn [snd].
      rewrite (charged_scan sp o resp um0 Hscan). reflexivity. }
    cbn [map sum_cost]. rewrite Hcharge.
    unfold sum_tokens in *. cbn [map sum_Z foldr].
    fold (sum_Z (map (fun c : Z * Z => fst c + snd c)
                   (map (turn_charge sp) turns))).
    rewrite Htok', Htok, Hreq', Hreq, Hcost', Hcost.
    repeat split; try lia. ring.
Qed.

Lemma request_cost_formula i o :
  (App.request_cost i o == (3 * i + 15 * o) # 1000000)%Q.
Proof.
  unfold App.request_cost, Qeq, Qdiv, Qmult, Qplus, Qinv, inject_Z.
  cbn [Qnum Qden]. lia.
Qed.

Lemma request_cost_add i1 i2 o1 o2 :
  (App.request_cost (i1 + i2) (o1 + o2)
   == App.request_cost i1 o1 + App.request_cost i2 o2)%Q.
Proof.
  rewrite !request_cost_formula. unfold Qeq, Qplus. cbn [Qnum Qden]. lia.
Qed.

Lemma request_cost_scale k i o :
  (App.request_cost (k * i) (k * o) == inject_Z k * App.request_cost i o)%Q.
Proof.
  rewrite !request_cost_formula. unfold Qeq, Qmult, inject_Z.
  cbn [Qnum Qden]. lia.
Qed.

Lemma request_metrics_cost_shown d c :
  App.request_metrics_cost d = Some c ->
  c = App.request_cost (get0 d "inputTokens") (get0 d "outputTokens").
Proof.
  unfold App.request_metrics_cost.
  destruct (usage_truthy (Some d)); [|discriminate].
  destruct (_ || _)%bool; [|discriminate].
  intros [= <-]. reflexivity.
Qed.

Lemma request_metrics_cost_positive d :
  0 < get0 d "inputTokens" \/ 0 < get0 d "outputTokens" ->
  App.request_metrics_cost d =
  Some (App.request_cost (get0 d "inputTokens") (get0 d "outputTokens")).
Proof.
  intros H. unfold App.request_metrics_cost.
  assert (Hne : d <> ∅).
  { intros ->. unfold get0 in H. rewrite !lookup_empty in H. cbn in H. lia. }
  unfold usage_truthy. rewrite bool_decide_eq_false_2 by exact Hne. cbn.
  destruct H as [H|H].
  - apply Z.ltb_lt in H. rewrite H. reflexivity.
  - apply Z.ltb_lt in H. rewrite H, orb_true_r. reflexivity.
Qed.

Lemma streaming_turn_ledger prompt events s s' :
  AppStreaming.chat_turn prompt events s = Some s' ->
  total_tokens s' = total_tokens s /\ total_cost s' = total_cost s /\
  total_requests s' = total_requests s.
Proof.
  unfold AppStreaming.chat_turn. cbn.
  destruct (agent s); cbn; [|discriminate].
  intros [= <-]. cbn. repeat split.
Qed.

(** C2, as stated, fails on the streaming page: a completed turn there
    leaves the ledger untouched (the request count is still absent), so
    the ledger is updated zero times. *)
Lemma streaming_turn_skips_ledger :
  exists s',
    AppStreaming.chat_turn "What did I spend?" [data_event "You spent $12."]
      ready = Some s' /\
    total_requests s' = None /\
    ~ updated_once ready s'.
Proof.
  eexists. split; [reflexivity|]. split; [reflexivity|].
  unfold updated_once. vm_compute. discriminate.
Qed.

(** C2, amended: on the buffered page every completed chat turn updates
    the ledger totals exactly once, from the usage metrics when some are
    available and from the estimator's figures otherwise; the streaming
    page keeps no ledger, and a turn there leaves the three totals as they
    were. *)
Theorem ledger_updated_once_buffered :
  (forall sp prompt o s,
     is_Some (agent s) -> ledger_consistent s ->
     forallb sdk_message (App.agent_messages_after o) = true ->
     exists s' shown resp um0,
       App.chat_turn sp prompt o s = Some (s', shown) /\
       App.scan_messages (EmptyString, None) (App.agent_messages_after o)
         = Some (resp, um0) /\
       updated_once s s' /\
       let um := App.select_usage o um0 in
       let d := default ∅ um in
       let est_in :=
         calculate_conversation_tokens (App.agent_messages_after o) sp in
       let est_out := estimate_tokens_from_text (Text resp) in
       (usage_truthy um = true ->
          tokens s' =
            tokens s + (get0 d "inputTokens" + get0 d "outputTokens") /\
          (cost s' ==
             cost s + App.request_cost (get0 d "inputTokens")
                        (get0 d "outputTokens"))%Q) /\
       (usage_truthy um = false ->
          tokens s' = tokens s + (est_in + est_out) /\
          (cost s' == cost s + App.request_cost est_in est_out)%Q)) /\
  (forall prompt events s s',
     AppStreaming.chat_turn prompt events s = Some s' ->
     total_tokens s' = total_tokens s /\ total_cost s' = total_cost s /\
     total_requests s' = total_requests s).
Proof.
  split.
  - intros sp prompt o s Ha Hs Hms.
    destruct (chat_turn_once sp prompt o s Ha Hs Hms)
      as (s' & shown & resp & um0 & Hturn & Hscan & Hreq & Htok & Hcost & _).
    exists s', shown, resp, um0.
    split; [exact Hturn|]. split; [exact Hscan|]. split; [exact Hreq|].
    cbn zeta. unfold App.turn_tokens in Htok, Hcost.
    split; intros Hum; rewrite Hum in Htok, Hcost; cbn [fst snd] in *;
      split; assumption.
  - apply streaming_turn_ledger.
Qed.

Lemma ledger_updated_once_buffered_witness :
  exists s' shown,
    App.chat_turn "You are a FinOps AI Assistant" "What did I spend?"
      {| App.agent_messages_after :=
           [text_message "user" "{text: What did I spend?}"
              "What did I spend?" None;
            text_message "assistant" "{text: You spent $12.}"
              "You spent $12." None];
         App.agent_usage := None;
         App.response_usage := None |}
      ready = Some (s', shown) /\
    updated_once ready s'.
Proof.
  destruct (proj1 ledger_updated_once_buffered
              "You are a FinOps AI Assistant" "What did I spend?"
              {| App.agent_messages_after :=
                   [text_message "user" "{text: What did I spend?}"
                      "What did I spend?" None;
                    text_message "assistant" "{text: You spent $12.}"
                      "You spent $12." None];
                 App.agent_usage := None;
                 App.response_usage := None |}
              ready)
    as (s' & shown & resp & um0 & Hturn & _ & Hreq & _).
  - eexists. reflexivity.
  - exact I.
  - reflexivity.
  - exists s', shown. split; assumption.
Defined.

(** C3: after any run of completed turns since the ledger was last
    reset, the token total is the sum of input plus output tokens over the
    turns, the cost total is the sum of the per-turn costs, and the
    request total is the number of turns, whether a turn was charged
    from reported usage or from the estimator. *)
Theorem ledger_accounting_identity sp turns s :
  is_Some (agent s) ->
  Forall (fun t => forallb sdk_message (App.agent_messages_after (snd t)) = true)
    turns ->
  exists s',
    App.chat_turns sp turns (App.reset_stats s) = Some s' /\
    tokens s' = sum_tokens (map (turn_charge sp) turns) /\
    (cost s' == sum_cost (map (turn_charge sp) turns))%Q /\
    requests s' = Z.of_nat (length turns).
Proof.
  intros Ha Hall.
  destruct (chat_turns_sum sp turns (App.reset_stats s)) as
    (s' & Hrun & Htok & Hcost & Hreq); [exact Ha | exact I | exact Hall |].
  exists s'. split; [exact Hrun|].
  change (tokens (App.reset_stats s)) with 0 in Htok.
  change (cost (App.reset_stats s)) with 0%Q in Hcost.
  change (requests (App.reset_stats s)) with 0 in Hreq.
  repeat split; [lia | | lia].
  rewrite Hcost. ring.
Qed.

Lemma ledger_accounting_identity_witness :
  exists s',
    App.chat_turns "You are a FinOps AI Assistant"
      [("What did I spend?",
        {| App.agent_messages_after :=
             [text_message "assistant" "{text: You spent $12.}"
                "You spent $12." None];
           App.agent_usage := None;
           App.response_usage :=
             Some (Some (<["inputTokens" := 1200]>
                           (<["outputTokens" := 80]> ∅))) |});
       ("And last month?",
        {| App.agent_messages_after :=
             [text_message "assistant" "{text: $9.}" "$9." None];
           App.agent_usage := None;
           App.response_usage := None |})]
      (App.reset_stats ready) = Some s' /\
    requests s' = 2.
Proof.
  destruct (ledger_accounting_identity "You are a FinOps AI Assistant"
      [("What did I spend?",
        {| App.agent_messages_after :=
             [text_message "assistant" "{text: You spent $12.}"
                "You spent $12." None];
           App.agent_usage := None;
           App.response_usage :=
             Some (Some (<["inputTokens" := 1200]>
                           (<["outputTokens" := 80]> ∅))) |});
       ("And last month?",
        {| App.agent_messages_after :=
             [text_message "assistant" "{text: $9.}" "$9." None];
           App.agent_usage := None;
           App.response_usage := None |})]
      ready) as (s' & Hrun & _ & _ & Hreq).
  - eexists. reflexivity.
  - repeat constructor.
  - exists s'. split; assumption.
Defined.

(** C4: the cost of a request is linear in its token counts, at $3.00
    per million input tokens and $15.00 per million output tokens, and
    the cost shown under the request metrics is that same value. *)
Theorem request_cost_linear :
  (forall i o,
     (App.request_cost i o
      == inject_Z i / 1000000 * 3 + inject_Z o / 1000000 * 15)%Q) /\
  (forall i1 i2 o1 o2,
     (App.request_cost (i1 + i2) (o1 + o2)
      == App.request_cost i1 o1 + App.request_cost i2 o2)%Q) /\
  (forall k i o,
     (App.request_cost (k * i) (k * o)
      == inject_Z k * App.request_cost i o)%Q) /\
  (forall d c,
     App.request_metrics_cost d = Some c ->
     c = App.request_cost (get0 d "inputTokens") (get0 d "outputTokens")) /\
  (forall d,
     0 < get0 d "inputTokens" \/ 0 < get0 d "outputTokens" ->
     App.request_metrics_cost d =
     Some (App.request_cost (get0 d "inputTokens") (get0 d "outputTokens"))).
Proof.
  split; [|split; [|split; [|split]]].
  - intros i o. reflexivity.
  - apply request_cost_add.
  - apply request_cost_scale.
  - apply request_metrics_cost_shown.
  - apply request_metrics_cost_positive.
Qed.

Lemma request_cost_linear_witness :
  App.request_metrics_cost
    (<["inputTokens" := 1000000]> (<["outputTokens" := 200000]> ∅))
  = Some (App.request_cost 1000000 200000) /\
  (App.request_cost 1000000 200000 == 6)%Q.
Proof.
  split.
  - etrans.
    + apply (proj2 (proj2 (proj2 (proj2 request_cost_linear)))
               (<["inputTokens" := 1000000]> (<["outputTokens" := 200000]> ∅))).
      left. vm_compute. reflexivity.
    + vm_compute. reflexivity.
  - vm_compute. reflexivity.
Defined.

End LedgerFacts.


(** ** Model and rates *)

Module ModelFacts.
Import Estimator Session Claims.

(** C5, as stated, fails: with [BEDROCK_MODEL_ID] set to a model that has
    no rates, the streaming page builds its model and goes on, where the
    specification's start-up is a [ConfigError]. *)
Lemma unknown_model_accepted :
  let env : gmap string string :=
    {[ "BEDROCK_MODEL_ID" := "example.unknown-model-v1:0" ]} in
  rate_table !! model_id (AppStreaming.model env) = None /\
  spec_startup_model env = None /\
  Some (AppStreaming.model env) <> spec_startup_model env.
Proof. cbn zeta. repeat split; vm_compute; congruence. Qed.

Lemma streaming_model_id env :
  model_id (AppStreaming.model env) =
  default claude_3_7_sonnet (env !! "BEDROCK_MODEL_ID").
Proof. reflexivity. Qed.

Lemma streaming_turn_no_cost prompt events s s' :
  AppStreaming.chat_turn prompt events s = Some s' ->
  total_cost s' = total_cost s.
Proof.
  unfold AppStreaming.chat_turn. cbn.
  destruct (agent s); cbn; [|discriminate].
  intros [= <-]. reflexivity.
Qed.

(** C5, amended: there is no rate table and no [ConfigError].  The rates
    are the two literals of the buffered page, $3.00 and $15.00 per million
    tokens, and that page's model id is the literal Claude 3.7 Sonnet id
    whatever the environment holds; the streaming page takes any model id
    from [BEDROCK_MODEL_ID] (the same default otherwise) without a lookup,
    and computes no cost. *)
Theorem rates_are_fixed_constants :
  (forall i o, (App.request_cost i o == (3 * i + 15 * o) # 1000000)%Q) /\
  model_id App.model = claude_3_7_sonnet /\
  rate_table !! model_id App.model = Some (3%Q, 15%Q) /\
  (forall env id,
     env !! "BEDROCK_MODEL_ID" = Some id ->
     model_id (AppStreaming.model env) = id) /\
  (forall env,
     env !! "BEDROCK_MODEL_ID" = None ->
     model_id (AppStreaming.model env) = claude_3_7_sonnet) /\
  (forall prompt events s s',
     AppStreaming.chat_turn prompt events s = Some s' ->
     total_cost s' = total_cost s).
Proof.
  split; [|split; [|split; [|split; [|split]]]].
  - apply LedgerFacts.request_cost_formula.
  - reflexivity.
  - reflexivity.
  - intros env id H. rewrite streaming_model_id, H. reflexivity.
  - intros env H. rewrite streaming_model_id, H. reflexivity.
  - apply streaming_turn_no_cost.
Qed.

Lemma rates_are_fixed_constants_witness :
  model_id (AppStreaming.model
              {[ "BEDROCK_MODEL_ID" := "example.unknown-model-v1:0" ]})
  = "example.unknown-model-v1:0".
Proof.
  apply (proj1 (proj2 (proj2 (proj2 rates_are_fixed_constants)))
           {[ "BEDROCK_MODEL_ID" := "example.unknown-model-v1:0" ]}).
  vm_compute. reflexivity.
Defined.

End ModelFacts.

(** ** Start-up of the tool servers and of the agent *)

Module StartupFacts.
Import Estimator Session Claims.

(** Starting a server adds its tools after those already collected. *)
Lemma start_server_tools c store o st :
  snd (App.start_server c store o st) = snd st ++ tools_of o.
Proof. destruct o; cbn; [rewrite app_nil_r ..|]; reflexivity. Qed.

(** The agent the buffered page ends up with. *)
Lemma initialize_agent_result env sp o s :
  agent s = None ->
  agent (App.initialize_agent env sp o s) =
  Some (new_Agent App.model sp
          (if init_failed o then [] else loaded_tools env o)
          finops_conversation_manager).
Proof.
  intros Hs. unfold App.initialize_agent, init_failed, loaded_tools.
  rewrite Hs.
  destruct (App.setup_raises o); [reflexivity|]. cbn [orb].
  destruct (App.report_raises o); [reflexivity|].
  destruct (App.load_raises o); [reflexivity|]. cbn [orb].
  destruct (App.enable_aws_api env), (App.aws_client_raises o); cbn [andb negb];
    rewrite ?start_server_tools; cbn [snd app];
    rewrite ?app_nil_r;
    match goal with
    | |- context [match ?l with [] => _ | _ :: _ => _ end] =>
        destruct l eqn:Hl; reflexivity
    end.
Qed.

Lemma streaming_initialize_agent_result env sp o s :
  agent s = None ->
  agent (AppStreaming.initialize_agent env sp o s) =
  Some (new_Agent (AppStreaming.model env) sp
          (if streaming_init_failed o then []
           else tools_of (AppStreaming.billing_start o))
          finops_conversation_manager).
Proof.
  intros Hs. unfold AppStreaming.initialize_agent, streaming_init_failed.
  rewrite Hs.
  destruct (AppStreaming.setup_raises o); [reflexivity|]. cbn [orb].
  destruct (AppStreaming.report_raises o); [reflexivity|].
  destruct (AppStreaming.load_raises o); [reflexivity|]. cbn [orb].
  rewrite start_server_tools. cbn [snd app].
  destruct (tools_of (AppStreaming.billing_start o)); reflexivity.
Qed.

Lemma tools_of_failed o : start_failed o = true -> tools_of o = [].
Proof. destruct o; cbn; congruence. Qed.

Lemma aws_client_stored env sp o s ts :
  agent s = None -> init_failed o = false ->
  App.enable_aws_api env = true -> App.aws_client_raises o = false ->
  App.aws_api_start o = App.Started ts ->
  aws_api_mcp_client (App.initialize_agent env sp o s) = Some aws_api_client.
Proof.
  unfold init_failed, App.initialize_agent.
  intros -> Hf -> -> ->.
  destruct (App.setup_raises o); [discriminate|].
  destruct (App.report_raises o); [discriminate|].
  destruct (App.load_raises o); [discriminate|].
  destruct (App.billing_start o); cbn;
    match goal with
    | |- context [match ?l with [] => _ | _ :: _ => _ end] =>
        destruct l; reflexivity
    end.
Qed.

Lemma billing_client_stored env sp o s ts :
  agent s = None -> init_failed o = false ->
  App.billing_start o = App.Started ts ->
  billing_mcp_client (App.initialize_agent env sp o s) = Some billing_client.
Proof.
  unfold init_failed, App.initialize_agent.
  intros -> Hf ->.
  destruct (App.setup_raises o); [discriminate|].
  destruct (App.report_raises o); [discriminate|].
  destruct (App.load_raises o); [discriminate|].
  destruct (App.enable_aws_api env), (App.aws_client_raises o),
    (App.aws_api_start o); cbn;
    match goal with
    | |- context [match ?l with [] => _ | _ :: _ => _ end] =>
        destruct l; reflexivity
    | _ => reflexivity
    end.
Qed.

(** C6: when one tool server fails to start, the other one is still
    started and registered: its tools are the agent's tools, so the tool
    set is not empty, and the agent is the one created with tools rather
    than a fallback. *)
Theorem provider_isolation env sp o s ts :
  agent s = None -> init_failed o = false -> ts <> [] ->
  (start_failed (App.billing_start o) = true ->
   App.enable_aws_api env = true -> App.aws_client_raises o = false ->
   App.aws_api_start o = App.Started ts ->
   let s' := App.initialize_agent env sp o s in
   tools <$> agent s' = Some ts /\
   aws_api_mcp_client s' = Some aws_api_client /\
   tools <$> agent s' <> Some []) /\
  (App.billing_start o = App.Started ts ->
   start_failed (App.aws_api_start o) = true ->
   let s' := App.initialize_agent env sp o s in
   tools <$> agent s' = Some ts /\
   billing_mcp_client s' = Some billing_client /\
   tools <$> agent s' <> Some []).
Proof.
  intros Hs Hf Hts.
  assert (Hne : Some ts <> Some []) by congruence.
  split.
  - intros Hb Hen Hcl Ha. cbn zeta.
    rewrite (initialize_agent_result env sp o s Hs), Hf.
    unfold loaded_tools. rewrite (tools_of_failed _ Hb), Hen, Hcl, Ha. cbn.
    repeat split; [|exact Hne].
    apply (aws_client_stored env sp o s ts); assumption.
  - intros Hb Ha. cbn zeta.
    rewrite (initialize_agent_result env sp o s Hs), Hf.
    unfold loaded_tools. rewrite (tools_of_failed _ Ha), Hb.
    assert (Htl : tools_of (App.Started ts) ++
                  (if (App.enable_aws_api env && negb (App.aws_client_raises o))%bool
                   then [] else []) = ts).
    { cbn. destruct (_ && _)%bool; apply app_nil_r. }
    cbn [fmap option_fmap option_map tools new_Agent]. rewrite Htl.
    repeat split; [|exact Hne].
    apply (billing_client_stored env sp o s ts); assumption.
Qed.

Lemma provider_isolation_witness :
  tools <$> agent
    (App.initialize_agent ∅ "You are a FinOps AI Assistant"
       {| App.setup_raises := false; App.aws_client_raises := false;
          App.billing_start := App.EnterRaises;
          App.aws_api_start := App.Started [Tool "call_aws"];
          App.report_raises := false; App.load_raises := false |}
       fresh)
  = Some [Tool "call_aws"].
Proof.
  apply (proj1 (provider_isolation ∅ "You are a FinOps AI Assistant"
       {| App.setup_raises := false; App.aws_client_raises := false;
          App.billing_start := App.EnterRaises;
          App.aws_api_start := App.Started [Tool "call_aws"];
          App.report_raises := false; App.load_raises := false |}
       fresh [Tool "call_aws"] eq_refl eq_refl ltac:(discriminate))
       eq_refl eq_refl eq_refl eq_refl).
Defined.

(** C10: once the initialisation has run, the session holds an agent.  An
    agent built by this run has the page's model, system prompt and
    conversation manager; on every failure path (an exception before,
    between or inside the tool-loading blocks, or no tool loaded) its tool
    list is empty. *)
Theorem agent_always_constructed :
  (forall env sp o s,
     exists a,
       agent (App.initialize_agent env sp o s) = Some a /\
       (agent s = None ->
        model a = App.model /\ system_prompt a = sp /\
        conversation_manager a = finops_conversation_manager /\
        tools a = (if init_failed o then [] else loaded_tools env o) /\
        (init_failed o = true \/ loaded_tools env o = [] -> tools a = []))) /\
  (forall env sp o s,
     exists a,
       agent (AppStreaming.initialize_agent env sp o s) = Some a /\
       (agent s = None ->
        model a = AppStreaming.model env /\ system_prompt a = sp /\
        conversation_manager a = finops_conversation_manager /\
        tools a = (if streaming_init_failed o then []
                   else tools_of (AppStreaming.billing_start o)) /\
        (streaming_init_failed o = true
         \/ tools_of (AppStreaming.billing_start o) = [] -> tools a = []))).
Proof.
  split; intros env sp o s.
  - destruct (agent s) as [a0|] eqn:Hs.
    + exists a0. split; [|discriminate].
      unfold App.initialize_agent. rewrite Hs. exact Hs.
    + eexists. split; [apply initialize_agent_result, Hs|].
      intros _. cbn. repeat split.
      intros [-> | H]; [reflexivity|].
      destruct (init_failed o); [reflexivity | exact H].
  - destruct (agent s) as [a0|] eqn:Hs.
    + exists a0. split; [|discriminate].
      unfold AppStreaming.initialize_agent. rewrite Hs. exact Hs.
    + eexists. split; [apply streaming_initialize_agent_result, Hs|].
      intros _. cbn. repeat split.
      intros [-> | H]; [reflexivity|].
      destruct (streaming_init_failed o); [reflexivity | exact H].
Qed.

Lemma agent_always_constructed_witness :
  exists a,
    agent (App.initialize_agent ∅ "You are a FinOps AI Assistant"
             {| App.setup_raises := false; App.aws_client_raises := false;
                App.billing_start := App.EnterRaises;
                App.aws_api_start := App.ListRaises;
                App.report_raises := false; App.load_raises := false |}
             fresh) = Some a /\
    tools a = [].
Proof.
  destruct (proj1 agent_always_constructed ∅ "You are a FinOps AI Assistant"
             {| App.setup_raises := false; App.aws_client_raises := false;
                App.billing_start := App.EnterRaises;
                App.aws_api_start := App.ListRaises;
                App.report_raises := false; App.load_raises := false |}
             fresh) as (a & Ha & Hrest).
  exists a. split; [exact Ha|].
  destruct (Hrest eq_refl) as (_ & _ & _ & _ & Hempty).
  apply Hempty. right. reflexivity.
Defined.

End StartupFacts.

(** ** Shutdown of the tool servers *)

Module ShutdownFacts.
Import Estimator Session Exn Claims.

(** One guarded close: it returns normally whatever [__exit__] does, and
    [__exit__] has been called. *)
Lemma guarded_close exit_raises c ok_msg err_msg :
  let m := try_except
             (App.client_exit exit_raises c ;; print ok_msg)
             (fun e => print (err_msg +:+ e)) in
  result m = Returned tt /\
  ExitCalled c ∈ trace m /\
  (forall e, exit_raises c = Some e -> Printed (err_msg +:+ e) ∈ trace m) /\
  (exit_raises c = None -> Printed ok_msg ∈ trace m).
Proof.
  cbn zeta. unfold App.client_exit, try_except, bind, print, result, trace.
  destruct (exit_raises c) as [e|]; cbn.
  - repeat split; try set_solver.
  - repeat split; try set_solver.
Qed.

Lemma bind_returned {A B} (m : M A) (k : A -> M B) a :
  result m = Returned a ->
  result (bind m k) = result (k a) /\
  trace (bind m k) = trace m ++ trace (k a).
Proof.
  destruct m as [tr r]. cbn. intros ->. unfold bind, result, trace.
  destruct (k a). split; reflexivity.
Qed.

Lemma streaming_cleanup exit_raises s :
  result (AppStreaming.cleanup_mcp_clients exit_raises s) = Returned tt /\
  (forall c, billing_mcp_client s = Some c ->
     ExitCalled c ∈ trace (AppStreaming.cleanup_mcp_clients exit_raises s) /\
     forall e, exit_raises c = Some e ->
       Printed ("Error closing Billing MCP client: " +:+ e)
         ∈ trace (AppStreaming.cleanup_mcp_clients exit_raises s)).
Proof.
  unfold AppStreaming.cleanup_mcp_clients.
  destruct (billing_mcp_client s) as [c|].
  - destruct (guarded_close exit_raises c "Billing MCP client session closed"
                "Error closing Billing MCP client: ") as (Hr & Hx & He & _).
    split; [exact Hr|]. intros c' [= <-]. split; assumption.
  - split; [reflexivity | discriminate].
Qed.

(** C9: closing the tool-server clients returns normally for every
    session and whatever each [__exit__] does; a failing close is logged,
    and the close of every client the session holds is attempted, the
    second one also after the first one failed.  The same holds for the
    streaming page's single client. *)
Theorem cleanup_never_raises :
  (forall exit_raises s,
     let m := App.cleanup_mcp_clients exit_raises s in
     result m = Returned tt /\
     (forall c, billing_mcp_client s = Some c ->
        ExitCalled c ∈ trace m /\
        forall e, exit_raises c = Some e ->
          Printed ("Error closing Billing MCP client: " +:+ e) ∈ trace m) /\
     (forall c, aws_api_mcp_client s = Some c ->
        ExitCalled c ∈ trace m /\
        forall e, exit_raises c = Some e ->
          Printed ("Error closing AWS API MCP client: " +:+ e) ∈ trace m)) /\
  (forall exit_raises s,
     let m := AppStreaming.cleanup_mcp_clients exit_raises s in
     result m = Returned tt /\
     (forall c, billing_mcp_client s = Some c ->
        ExitCalled c ∈ trace m /\
        forall e, exit_raises c = Some e ->
          Printed ("Error closing Billing MCP client: " +:+ e) ∈ trace m)).
Proof.
  split; [|intros exit_raises s; apply streaming_cleanup].
  intros exit_raises s. cbn zeta. unfold App.cleanup_mcp_clients.
  set (first := match billing_mcp_client s with Some _ => _ | None => _ end).
  set (second := match aws_api_mcp_client s with Some _ => _ | None => _ end).
  assert (H1 : result first = Returned tt /\
               forall c, billing_mcp_client s = Some c ->
                 ExitCalled c ∈ trace first /\
                 forall e, exit_raises c = Some e ->
                   Printed ("Error closing Billing MCP client: " +:+ e)
                     ∈ trace first).
  { subst first. destruct (billing_mcp_client s) as [c|].
    - destruct (guarded_close exit_raises c "Billing MCP client session closed"
                  "Error closing Billing MCP client: ") as (Hr & Hx & He & _).
      split; [exact Hr|]. intros c' [= <-]. split; assumption.
    - split; [reflexivity | discriminate]. }
  assert (H2 : result second = Returned tt /\
               forall c, aws_api_mcp_client s = Some c ->
                 ExitCalled c ∈ trace second /\
                 forall e, exit_raises c = Some e ->
                   Printed ("Error closing AWS API MCP client: " +:+ e)
                     ∈ trace second).
  { subst second. destruct (aws_api_mcp_client s) as [c|].
    - destruct (guarded_close exit_raises c "AWS API MCP client session closed"
                  "Error closing AWS API MCP client: ") as (Hr & Hx & He & _).
      split; [exact Hr|]. intros c' [= <-]. split; assumption.
    - split; [reflexivity | discriminate]. }
  destruct H1 as [Hr1 Hc1], H2 as [Hr2 Hc2].
  destruct (bind_returned first (fun _ => second) tt Hr1) as [Hres Htr].
  rewrite Hres, Htr. split; [exact Hr2|]. split.
  - intros c Hc. destruct (Hc1 c Hc) as [Hx He].
    split; [apply elem_of_app; left; exact Hx|].
    intros e Hexit. apply elem_of_app. left. exact (He e Hexit).
  - intros c Hc. destruct (Hc2 c Hc) as [Hx He].
    split; [apply elem_of_app; right; exact Hx|].
    intros e Hexit. apply elem_of_app. right. exact (He e Hexit).
Qed.

Lemma cleanup_never_raises_witness :
  let s := set_aws_api_mcp_client (Some aws_api_client)
             (set_billing_mcp_client (Some billing_client) ready) in
  let exit_raises :=
    fun c : MCPClient =>
      if bool_decide (server_module c = server_module billing_client)
      then Some "broken pipe" else None in
  result (App.cleanup_mcp_clients exit_raises s) = Returned tt /\
  ExitCalled aws_api_client ∈ trace (App.cleanup_mcp_clients exit_raises s) /\
  Printed "Error closing Billing MCP client: broken pipe"
    ∈ trace (App.cleanup_mcp_clients exit_raises s).
Proof.
  cbn zeta.
  destruct (proj1 cleanup_never_raises
              (fun c : MCPClient =>
                 if bool_decide (server_module c = server_module billing_client)
                 then Some "broken pipe" else None)
              (set_aws_api_mcp_client (Some aws_api_client)
                 (set_billing_mcp_client (Some billing_client) ready)))
    as (Hr & Hb & Ha).
  split; [exact Hr|]. split.
  - exact (proj1 (Ha aws_api_client eq_refl)).
  - exact (proj2 (Hb billing_client eq_refl) "broken pipe" eq_refl).
Defined.

End ShutdownFacts.

(** ** Concatenation of strings *)

Module StringFacts.

Lemma string_app_nil_r s : s +:+ EmptyString = s.
Proof.
  induction s as [|c s IH]; [reflexivity|].
  change (String c (s +:+ EmptyString) = String c s). by rewrite IH.
Qed.

Lemma string_app_assoc a b c : (a +:+ b) +:+ c = a +:+ (b +:+ c).
Proof.
  induction a as [|x a IH]; [reflexivity|].
  change (String x ((a +:+ b) +:+ c) = String x (a +:+ (b +:+ c))).
  by rewrite IH.
Qed.

End StringFacts.

(** ** The streaming buffer *)

Module StreamingFacts.
Import Estimator Session Claims Observations StringFacts.

Lemma coalesced_nil : coalesced [].
Proof. intros i e1 e2 H. rewrite lookup_nil in H. discriminate. Qed.

(** Appending an entry keeps the buffer coalesced if the new entry and the
    old last one differ in kind, or are both tool-use entries. *)
Lemma coalesced_snoc (buf : list entry) (x : entry) :
  coalesced buf ->
  (forall e, last buf = Some e -> type e = type x -> type e = Some "tool_use") ->
  coalesced (buf ++ [x]).
Proof.
  intros Hbuf Hlast i e1 e2 H1 H2 Heq.
  apply lookup_snoc_Some in H1 as [[Hi H1]|[Hi _]];
    apply lookup_snoc_Some in H2 as [[Hj H2]|[Hj H2]]; try lia.
  - exact (Hbuf i e1 e2 H1 H2 Heq).
  - subst e2. apply Hlast; [|exact Heq].
    rewrite last_lookup. rewrite <- Hj. exact H1.
Qed.

(** Rewriting the content of one entry keeps the buffer coalesced. *)
Lemma coalesced_alter (f : entry -> entry) (i : nat) (buf : list entry) :
  (forall e, type (f e) = type e) -> coalesced buf -> coalesced (alter f i buf).
Proof.
  intros Hf Hbuf j e1 e2 H1 H2 Heq.
  assert (Hty : forall k e, alter f i buf !! k = Some e ->
                  exists e', buf !! k = Some e' /\ type e' = type e).
  { intros k e Hk. rewrite list_lookup_alter in Hk.
    destruct (decide (i = k)) as [->|Hne].
    - destruct (buf !! k) as [e'|]; [|discriminate].
      injection Hk as <-. exists e'. split; [reflexivity | symmetry; apply Hf].
    - exists e. split; [exact Hk | reflexivity]. }
  destruct (Hty _ _ H1) as (e1' & H1' & Ht1).
  destruct (Hty _ _ H2) as (e2' & H2' & Ht2).
  rewrite <- Ht1. apply (Hbuf j e1' e2' H1' H2'). congruence.
Qed.

Lemma add_or_append_coalesced ty text buf :
  coalesced buf -> coalesced (AppStreaming.add_or_append ty text buf).
Proof.
  intros Hbuf. unfold AppStreaming.add_or_append.
  destruct (last buf) as [e|] eqn:Hlast.
  - destruct (bool_decide (type e = Some ty)) eqn:Hty.
    + apply coalesced_alter; [reflexivity | exact Hbuf].
    + apply bool_decide_eq_false in Hty.
      apply coalesced_snoc; [exact Hbuf|].
      intros e' He' Heq. cbn in Heq. congruence.
  - apply coalesced_snoc; [exact Hbuf|]. intros e' He'. congruence.
Qed.

Lemma callback_coalesced buf kw :
  coalesced buf -> coalesced (AppStreaming.custom_callback_handler buf kw).
Proof.
  intros Hbuf. unfold AppStreaming.custom_callback_handler.
  destruct (AppStreaming.data kw) as [d|].
  { apply add_or_append_coalesced, Hbuf. }
  destruct (AppStreaming.tool_name_of kw) as [n|].
  - destruct (AppStreaming.current_tool_use kw ≫= AppStreaming.input) as [i|];
      [|exact Hbuf].
    apply coalesced_snoc; [exact Hbuf|].
    intros e _ Heq. cbn in Heq. exact Heq.
  - destruct (AppStreaming.reasoningText kw) as [r|]; [|exact Hbuf].
    apply add_or_append_coalesced, Hbuf.
Qed.

Lemma fold_callbacks_coalesced events :
  forall buf, coalesced buf ->
    coalesced (fold_left AppStreaming.custom_callback_handler events buf).
Proof.
  induction events as [|kw events IH]; intros buf Hbuf; cbn.
  - exact Hbuf.
  - apply IH, callback_coalesced, Hbuf.
Qed.

Lemma run_callbacks_coalesced events :
  coalesced (AppStreaming.run_callbacks events).
Proof. apply fold_callbacks_coalesced, coalesced_nil. Qed.

(** A run of fragments of one kind lands in one entry, in order. *)
Lemma fold_data_fragments ds :
  forall c,
    fold_left AppStreaming.custom_callback_handler (map data_event ds)
      [AppStreaming.new_item "data" c]
    = [AppStreaming.new_item "data" (fold_left String.append ds c)].
Proof.
  induction ds as [|d ds IH]; intros c; cbn.
  - reflexivity.
  - exact (IH (c +:+ d)).
Qed.

Lemma fold_reasoning_fragments rs :
  forall c,
    fold_left AppStreaming.custom_callback_handler (map reasoning_event rs)
      [AppStreaming.new_item "reasoning" c]
    = [AppStreaming.new_item "reasoning" (fold_left String.append rs c)].
Proof.
  induction rs as [|r rs IH]; intros c; cbn.
  - reflexivity.
  - exact (IH (c +:+ r)).
Qed.

Lemma streaming_turn_output prompt events s s' :
  AppStreaming.chat_turn prompt events s = Some s' ->
  output s' = AppStreaming.run_callbacks events /\
  messages s' =
    messages s
    ++ [{| role := Some "user"; type := None; content := prompt |}]
    ++ map (fun item => {| role := Some "assistant"; type := type item;
                           content := content item |})
         (AppStreaming.run_callbacks events).
Proof.
  unfold AppStreaming.chat_turn. cbn.
  destruct (agent s); cbn; [|discriminate].
  intros [= <-]. cbn. split; [reflexivity|]. rewrite <- app_assoc. reflexivity.
Qed.

(** *** The buffer is the list of runs of the recorded fragments *)

Lemma callback_records buf kw :
  AppStreaming.custom_callback_handler buf kw =
  match recorded kw with
  | Some f => snoc_fragment f buf
  | None => buf
  end.
Proof.
  unfold AppStreaming.custom_callback_handler, recorded, snoc_fragment.
  destruct (AppStreaming.data kw) as [d|]; [reflexivity|].
  destruct (AppStreaming.tool_name_of kw) as [n|].
  - by destruct (AppStreaming.current_tool_use kw ≫= AppStreaming.input).
  - by destruct (AppStreaming.reasoningText kw).
Qed.

Lemma add_or_append_snoc ty text init e :
  AppStreaming.add_or_append ty text (init ++ [e]) =
  init ++ (if bool_decide (type e = Some ty)
           then [AppStreaming.extend text e]
           else [e; AppStreaming.new_item ty text]).
Proof.
  unfold AppStreaming.add_or_append. rewrite last_snoc.
  case_bool_decide.
  - rewrite length_app, Nat.add_sub. cbn [length].
    replace (length init) with (length init + 0)%nat at 1 by lia.
    by rewrite alter_app_r.
  - by rewrite <- app_assoc.
Qed.

Lemma snoc_fragment_nil f :
  snoc_fragment f [] = [AppStreaming.new_item (fst f) (snd f)].
Proof. unfold snoc_fragment. by destruct (mergeable (fst f)). Qed.

Lemma snoc_fragment_snoc f init e :
  snoc_fragment f (init ++ [e]) =
  init ++ (if (mergeable (fst f) && bool_decide (type e = Some (fst f)))%bool
           then [AppStreaming.extend (snd f) e]
           else [e; AppStreaming.new_item (fst f) (snd f)]).
Proof.
  unfold snoc_fragment. destruct (mergeable (fst f)); cbn [andb].
  - apply add_or_append_snoc.
  - by rewrite <- app_assoc.
Qed.

Lemma cons_fragment_cons f e es :
  cons_fragment f (e :: es) =
  (if (mergeable (fst f) && bool_decide (type e = Some (fst f)))%bool
   then [prepend (snd f) e]
   else [AppStreaming.new_item (fst f) (snd f); e]) ++ es.
Proof.
  unfold cons_fragment.
  by destruct (mergeable (fst f) && bool_decide (type e = Some (fst f)))%bool.
Qed.

Lemma prepend_extend t0 t e :
  prepend t0 (AppStreaming.extend t e) = AppStreaming.extend t (prepend t0 e).
Proof.
  unfold prepend, AppStreaming.extend. cbn. by rewrite string_app_assoc.
Qed.

Lemma snoc_fragment_one f e :
  snoc_fragment f [e] =
  if (mergeable (fst f) && bool_decide (type e = Some (fst f)))%bool
  then [AppStreaming.extend (snd f) e]
  else [e; AppStreaming.new_item (fst f) (snd f)].
Proof. exact (snoc_fragment_snoc f [] e). Qed.

Lemma snoc_fragment_two f x e :
  snoc_fragment f [x; e] =
  x :: (if (mergeable (fst f) && bool_decide (type e = Some (fst f)))%bool
        then [AppStreaming.extend (snd f) e]
        else [e; AppStreaming.new_item (fst f) (snd f)]).
Proof. exact (snoc_fragment_snoc f [x] e). Qed.

Lemma cons_snoc_one f0 f e :
  cons_fragment f0 (snoc_fragment f [e]) = snoc_fragment f (cons_fragment f0 [e]).
Proof.
  rewrite snoc_fragment_one, (cons_fragment_cons f0 e []), app_nil_r.
  destruct (mergeable (fst f) && bool_decide (type e = Some (fst f)))%bool eqn:Ec;
    destruct (mergeable (fst f0) && bool_decide (type e = Some (fst f0)))%bool
      eqn:Ec0.
  - rewrite cons_fragment_cons, snoc_fragment_one, app_nil_r.
    cbn [type AppStreaming.extend prepend]. rewrite Ec, Ec0.
    f_equal. apply prepend_extend.
  - rewrite cons_fragment_cons, snoc_fragment_two, app_nil_r.
    cbn [type AppStreaming.extend]. by rewrite Ec, Ec0.
  - rewrite cons_fragment_cons, snoc_fragment_one.
    cbn [type prepend]. by rewrite Ec, Ec0.
  - rewrite cons_fragment_cons, snoc_fragment_two.
    by rewrite Ec, Ec0.
Qed.

Lemma cons_snoc_nil f0 f :
  cons_fragment f0 (snoc_fragment f []) = snoc_fragment f (cons_fragment f0 []).
Proof.
  rewrite snoc_fragment_nil. cbn [cons_fragment].
  rewrite snoc_fragment_one.
  cbn [type AppStreaming.new_item].
  destruct (decide (fst f = fst f0)) as [E|E].
  - rewrite E. rewrite !bool_decide_eq_true_2 by done.
    destruct (mergeable (fst f0)); cbn [andb]; [|reflexivity].
    unfold prepend, AppStreaming.extend. reflexivity.
  - rewrite !bool_decide_eq_false_2 by congruence.
    by rewrite !andb_false_r.
Qed.

Lemma cons_snoc_commute f0 f buf :
  cons_fragment f0 (snoc_fragment f buf) = snoc_fragment f (cons_fragment f0 buf).
Proof.
  destruct buf as [|e rest]; [apply cons_snoc_nil|].
  induction rest as [|l mid _] using rev_ind; [apply cons_snoc_one|].
  rewrite app_comm_cons, snoc_fragment_snoc. cbn [app].
  rewrite !cons_fragment_cons.
  rewrite (app_assoc _ mid [l]), snoc_fragment_snoc.
  by rewrite <- app_assoc.
Qed.

Lemma spec_coalesce_snoc fragments f :
  spec_coalesce (fragments ++ [f]) = snoc_fragment f (spec_coalesce fragments).
Proof.
  induction fragments as [|f0 fragments IH]; cbn [app spec_coalesce].
  - by rewrite snoc_fragment_nil.
  - by rewrite IH, cons_snoc_commute.
Qed.

Lemma run_callbacks_runs events :
  AppStreaming.run_callbacks events = spec_coalesce (omap recorded events).
Proof.
  unfold AppStreaming.run_callbacks.
  induction events as [|kw events IH] using rev_ind; [reflexivity|].
  rewrite fold_left_app, omap_app. cbn [fold_left omap list_omap].
  rewrite callback_records, IH.
  destruct (recorded kw) as [f|].
  - by rewrite spec_coalesce_snoc.
  - by rewrite app_nil_r.
Qed.

Lemma spec_coalesce_head f rest :
  exists e es, spec_coalesce (f :: rest) = e :: es /\ type e = Some (fst f).
Proof.
  cbn [spec_coalesce]. destruct (spec_coalesce rest) as [|e es].
  - eexists _, _. split; reflexivity.
  - rewrite cons_fragment_cons.
    destruct (mergeable (fst f) && bool_decide (type e = Some (fst f)))%bool eqn:E.
    + apply andb_true_iff in E as [_ E]. apply bool_decide_eq_true_1 in E.
      eexists _, _. split; [reflexivity|]. exact E.
    + eexists _, _. split; reflexivity.
Qed.

(** Where two neighbouring fragments differ in kind, the buffer splits. *)
Lemma spec_coalesce_app a b :
  (forall f g, last a = Some f -> head b = Some g -> fst f <> fst g) ->
  spec_coalesce (a ++ b) = spec_coalesce a ++ spec_coalesce b.
Proof.
  induction a as [|f a IH]; intros H; [reflexivity|].
  cbn [app spec_coalesce]. destruct a as [|f' a'].
  - cbn [app spec_coalesce cons_fragment]. destruct b as [|g b']; [reflexivity|].
    destruct (spec_coalesce_head g b') as (e & es & -> & He).
    rewrite cons_fragment_cons, He.
    rewrite bool_decide_eq_false_2, andb_false_r; [reflexivity|].
    intros [= E]. by apply (H f g).
  - rewrite IH by (intros f0 g Hl Hh; by apply H).
    destruct (spec_coalesce_head f' a') as (e & es & -> & _).
    cbn [app]. rewrite !cons_fragment_cons. by rewrite <- app_assoc.
Qed.

(** A run of fragments of one mergeable kind is one entry. *)
Lemma spec_coalesce_run ty t ts :
  mergeable ty = true ->
  spec_coalesce (map (pair ty) (t :: ts)) = [AppStreaming.new_item ty (join (t :: ts))].
Proof.
  intros Hm. revert t. induction ts as [|t' ts IH]; intros t.
  - cbn. by rewrite string_app_nil_r.
  - change (map (pair ty) (t :: t' :: ts))
      with ((ty, t) :: map (pair ty) (t' :: ts)).
    cbn [spec_coalesce] in *. rewrite IH, cons_fragment_cons.
    cbn [fst snd type AppStreaming.new_item]. rewrite Hm.
    rewrite bool_decide_eq_true_2 by done. reflexivity.
Qed.

Lemma last_run_kind (ty t : string) ts f :
  last (map (pair ty) (t :: ts)) = Some f -> fst f = ty.
Proof.
  change (map ?g ?l) with (g <$> l). rewrite fmap_last.
  destruct (last (t :: ts)); intros [= <-]. reflexivity.
Qed.

Lemma runs_in_place events before ty t ts after :
  omap recorded events = before ++ map (pair ty) (t :: ts) ++ after ->
  mergeable ty = true ->
  fst <$> last before <> Some ty -> fst <$> head after <> Some ty ->
  AppStreaming.run_callbacks events =
  spec_coalesce before ++ [AppStreaming.new_item ty (join (t :: ts))]
  ++ spec_coalesce after.
Proof.
  intros Hev Hm Hb Ha. rewrite run_callbacks_runs, Hev.
  rewrite spec_coalesce_app.
  - rewrite spec_coalesce_app; [by rewrite spec_coalesce_run|].
    intros f g Hf Hg E. apply last_run_kind in Hf. apply Ha.
    rewrite Hg. cbn. by rewrite <- E, Hf.
  - intros f g Hf Hg E. cbn in Hg. injection Hg as <-. apply Hb.
    rewrite Hf. cbn. by rewrite E.
Qed.

Lemma recorded_data_events ds :
  omap recorded (map data_event ds) = map (pair "data") ds.
Proof. induction ds as [|d ds IH]; [reflexivity|]. cbn. by f_equal. Qed.

Lemma recorded_reasoning_events rs :
  omap recorded (map reasoning_event rs) = map (pair "reasoning") rs.
Proof. induction rs as [|r rs IH]; [reflexivity|]. cbn. by f_equal. Qed.

Lemma run_between (event : string -> AppStreaming.kwargs) ty before t ts after :
  (forall l, omap recorded (map event l) = map (pair ty) l) ->
  mergeable ty = true ->
  fst <$> last (omap recorded before) <> Some ty ->
  fst <$> head (omap recorded after) <> Some ty ->
  AppStreaming.run_callbacks (before ++ map event (t :: ts) ++ after) =
  AppStreaming.run_callbacks before
  ++ [AppStreaming.new_item ty (join (t :: ts))]
  ++ AppStreaming.run_callbacks after.
Proof.
  intros Hrec Hm Hb Ha. rewrite !(run_callbacks_runs before), !(run_callbacks_runs after).
  apply runs_in_place; [|done..].
  by rewrite !omap_app, Hrec.
Qed.

(** C7, as stated, fails for tool-use: two callbacks in a row that carry
    a tool use leave two neighbouring tool-use entries in the stored
    buffer. *)
Lemma tool_use_entries_adjacent :
  exists s',
    AppStreaming.chat_turn "What did I spend?"
      [tool_event "get_cost" "{}"; tool_event "get_cost" "{days: 30}"] ready
    = Some s' /\
    output s' =
      [AppStreaming.new_item "tool_use" "Using tool: get_cost with args: {}";
       AppStreaming.new_item "tool_use"
         "Using tool: get_cost with args: {days: 30}"] /\
    ~ no_adjacent_same_kind (output s').
Proof.
  eexists. split; [reflexivity|]. split; [reflexivity|].
  intros H.
  apply (H 0%nat
           (AppStreaming.new_item "tool_use" "Using tool: get_cost with args: {}")
           (AppStreaming.new_item "tool_use"
              "Using tool: get_cost with args: {days: 30}"));
    reflexivity.
Qed.

(** C7, amended: the streaming buffer coalesces consecutive text-data
    fragments, and consecutive reasoning fragments, into one entry.  For
    every sequence of callbacks the stored buffer has no two neighbouring
    entries of the same kind other than tool-use; it is exactly the list
    of runs of the fragments the callbacks record; wherever these
    fragments contain a run of data fragments (or of reasoning fragments)
    that is not continued on either side, the buffer holds in its place
    one entry with their concatenation, between the entries of what came
    before and of what comes after; and that buffer is what the turn
    stores and appends to the chat history. *)
Theorem streamed_fragments_coalesced :
  (forall events, coalesced (AppStreaming.run_callbacks events)) /\
  (forall events,
     AppStreaming.run_callbacks events = spec_coalesce (omap recorded events)) /\
  (forall events before ty t ts after,
     omap recorded events = before ++ map (pair ty) (t :: ts) ++ after ->
     ty = "data" \/ ty = "reasoning" ->
     fst <$> last before <> Some ty -> fst <$> head after <> Some ty ->
     AppStreaming.run_callbacks events =
     spec_coalesce before ++ [AppStreaming.new_item ty (join (t :: ts))]
     ++ spec_coalesce after) /\
  (forall before d ds after,
     fst <$> last (omap recorded before) <> Some "data" ->
     fst <$> head (omap recorded after) <> Some "data" ->
     AppStreaming.run_callbacks (before ++ map data_event (d :: ds) ++ after)
     = AppStreaming.run_callbacks before
       ++ [AppStreaming.new_item "data" (join (d :: ds))]
       ++ AppStreaming.run_callbacks after) /\
  (forall before r rs after,
     fst <$> last (omap recorded before) <> Some "reasoning" ->
     fst <$> head (omap recorded after) <> Some "reasoning" ->
     AppStreaming.run_callbacks
       (before ++ map reasoning_event (r :: rs) ++ after)
     = AppStreaming.run_callbacks before
       ++ [AppStreaming.new_item "reasoning" (join (r :: rs))]
       ++ AppStreaming.run_callbacks after) /\
  (forall d ds,
     AppStreaming.run_callbacks (map data_event (d :: ds))
     = [AppStreaming.new_item "data" (fold_left String.append ds d)]) /\
  (forall r rs,
     AppStreaming.run_callbacks (map reasoning_event (r :: rs))
     = [AppStreaming.new_item "reasoning" (fold_left String.append rs r)]) /\
  (forall prompt events s s',
     AppStreaming.chat_turn prompt events s = Some s' ->
     output s' = AppStreaming.run_callbacks events /\
     coalesced (output s') /\
     messages s' =
       messages s
       ++ [{| role := Some "user"; type := None; content := prompt |}]
       ++ map (fun item => {| role := Some "assistant"; type := type item;
                              content := content item |})
            (output s')).
Proof.
  split; [|split; [|split; [|split; [|split; [|split; [|split]]]]]].
  - apply run_callbacks_coalesced.
  - apply run_callbacks_runs.
  - intros events before ty t ts after Hev Hty Hb Ha.
    apply runs_in_place; try done. by destruct Hty as [-> | ->].
  - intros before d ds after Hb Ha.
    by apply (run_between data_event "data"); [apply recorded_data_events|..].
  - intros before r rs after Hb Ha.
    by apply (run_between reasoning_event "reasoning");
      [apply recorded_reasoning_events|..].
  - intros d ds. apply (fold_data_fragments ds d).
  - intros r rs. apply (fold_reasoning_fragments rs r).
  - intros prompt events s s' H.
    destruct (streaming_turn_output prompt events s s' H) as [Hout Hmsg].
    rewrite Hout. repeat split; [apply run_callbacks_coalesced | exact Hmsg].
Qed.

Lemma streamed_fragments_coalesced_witness :
  (exists s',
     AppStreaming.chat_turn "What did I spend?"
       [reasoning_event "Let me "; reasoning_event "check.";
        data_event "You "; data_event "spent "; data_event "$12."] ready
     = Some s' /\
     output s' =
       [AppStreaming.new_item "reasoning" "Let me check.";
        AppStreaming.new_item "data" "You spent $12."] /\
     coalesced (output s')) /\
  AppStreaming.run_callbacks
    ([reasoning_event "Let me check."]
     ++ map data_event ["You "; "spent "; "$12."]
     ++ [tool_event "get_cost" "{}"; data_event "Done."])
  = [AppStreaming.new_item "reasoning" "Let me check.";
     AppStreaming.new_item "data" "You spent $12.";
     AppStreaming.new_item "tool_use" "Using tool: get_cost with args: {}";
     AppStreaming.new_item "data" "Done."].
Proof.
  split.
  - eexists. split; [reflexivity|]. split; [reflexivity|].
    exact (proj1 (proj2 (proj2 (proj2 (proj2 (proj2 (proj2 (proj2 (proj2
             streamed_fragments_coalesced))))))
             "What did I spend?"
             [reasoning_event "Let me "; reasoning_event "check.";
              data_event "You "; data_event "spent "; data_event "$12."]
             ready _ eq_refl))).
  - etrans;
      [apply (proj1 (proj2 (proj2 (proj2 streamed_fragments_coalesced))));
       vm_compute; discriminate
      |vm_compute; reflexivity].
Defined.

End StreamingFacts.

(** ** Bounds on the estimator ([app.py], lines 46-93) *)

Module EstimatorBounds.
Import Estimator Session Claims Observations.

Lemma floordiv_3_2_mono n m : n <= m -> floordiv_3_2 n <= floordiv_3_2 m.
Proof.
  intros H. rewrite !EstimatorFacts.floordiv_3_2_Z.
  apply Z.div_le_mono; lia.
Qed.

Lemma floordiv_3_2_le n : 0 <= n -> 0 <= floordiv_3_2 n <= n.
Proof.
  intros H. rewrite EstimatorFacts.floordiv_3_2_Z. split.
  - apply Z.div_pos; lia.
  - apply Z.div_le_upper_bound; [lia|].
    change (2 ^ 50) with 1125899906842624. nia.
Qed.

Lemma estimate_text_bounds s :
  0 <= estimate_tokens_from_text (Text s) <= len s.
Proof.
  rewrite EstimatorFacts.estimate_text. case_bool_decide as Hs.
  - subst s. change (len EmptyString) with 0. lia.
  - pose proof (EstimatorFacts.len_pos s Hs).
    pose proof (floordiv_3_2_le (len s)). lia.
Qed.

Lemma estimate_nonneg p : 0 <= estimate_tokens_from_text p.
Proof.
  unfold estimate_tokens_from_text. destruct (py_not p); lia.
Qed.

Lemma sum_Z_nonneg l : Forall (fun x => 0 <= x) l -> 0 <= sum_Z l.
Proof.
  induction 1 as [|x l Hx _ IH]; cbn; [lia|]. unfold sum_Z in IH. lia.
Qed.

Lemma item_tokens_nonneg i : 0 <= item_tokens i.
Proof. destruct i; apply estimate_nonneg. Qed.

Lemma message_tokens_nonneg m : 0 <= message_tokens m.
Proof.
  unfold message_tokens, message_step.
  destruct m as [role [[items|p]|] usage|o]; cbn.
  - rewrite EstimatorFacts.fold_items_sum.
    pose proof (estimate_nonneg (default (Text EmptyString) role)).
    assert (0 <= sum_Z (map item_tokens items)); [|lia].
    apply sum_Z_nonneg, Forall_fmap, Forall_true. exact item_tokens_nonneg.
  - pose proof (estimate_nonneg (default (Text EmptyString) role)).
    pose proof (estimate_nonneg p). lia.
  - pose proof (estimate_nonneg (default (Text EmptyString) role)).
    pose proof (estimate_nonneg (Text EmptyString)). lia.
  - apply estimate_nonneg.
Qed.

Lemma sum_Z_app l1 l2 : sum_Z (l1 ++ l2) = sum_Z l1 + sum_Z l2.
Proof.
  unfold sum_Z. induction l1 as [|x l1 IH]; cbn; [lia|]. rewrite IH. lia.
Qed.

(** X1.  The estimate of a text is never negative and never more than
    its number of characters, and a longer text never gets a smaller
    estimate than a shorter one. *)
Theorem estimate_tokens_monotone :
  (forall s, 0 <= estimate_tokens_from_text (Text s) <= len s) /\
  (forall s1 s2,
     len s1 <= len s2 ->
     estimate_tokens_from_text (Text s1) <= estimate_tokens_from_text (Text s2)).
Proof.
  split; [apply estimate_text_bounds|].
  intros s1 s2 H. rewrite !EstimatorFacts.estimate_text.
  destruct (decide (s1 = EmptyString)) as [->|H1].
  - rewrite bool_decide_eq_true_2 by reflexivity.
    case_bool_decide; lia.
  - rewrite (bool_decide_eq_false_2 _ H1).
    pose proof (EstimatorFacts.len_pos s1 H1) as Hpos.
    case_bool_decide as H2.
    + subst s2. change (len EmptyString) with 0 in H. lia.
    + pose proof (floordiv_3_2_mono _ _ H). lia.
Qed.

Lemma estimate_tokens_monotone_witness :
  estimate_tokens_from_text (Text "cost")
  <= estimate_tokens_from_text (Text "cost by service").
Proof.
  apply (proj2 estimate_tokens_monotone). vm_compute. discriminate.
Defined.

Lemma conversation_tokens_lower ms sp :
  estimate_tokens_from_text (Text sp) <= calculate_conversation_tokens ms sp.
Proof.
  rewrite EstimatorFacts.conversation_tokens_sum.
  assert (0 <= sum_Z (map message_tokens ms)); [|lia].
  apply sum_Z_nonneg, Forall_fmap, Forall_true. exact message_tokens_nonneg.
Qed.

(** X2.  The conversation estimate is additive over the history: the
    estimate for a history extended by further messages is the estimate
    for the history plus the estimates of the further messages.  It
    therefore never decreases as the conversation grows, and it is never
    below the estimate of the system prompt alone. *)
Theorem conversation_tokens_append ms more sp :
  calculate_conversation_tokens (ms ++ more) sp =
    calculate_conversation_tokens ms sp + sum_Z (map message_tokens more) /\
  calculate_conversation_tokens ms sp
    <= calculate_conversation_tokens (ms ++ more) sp /\
  estimate_tokens_from_text (Text sp) <= calculate_conversation_tokens ms sp.
Proof.
  rewrite !EstimatorFacts.conversation_tokens_sum, map_app, sum_Z_app.
  assert (Hnn : forall l, 0 <= sum_Z (map message_tokens l)).
  { intros l. apply sum_Z_nonneg, Forall_fmap, Forall_true.
    exact message_tokens_nonneg. }
  pose proof (Hnn ms). pose proof (Hnn more). lia.
Qed.

End EstimatorBounds.

(** ** The chat handler of the buffered page ([app.py], lines 568-749) *)

Module TurnFacts.
Import Estimator Session Claims Observations.

Lemma usage_truthy_Some u : usage_truthy u = true -> exists d, u = Some d.
Proof. destruct u as [d|]; [eauto|discriminate]. Qed.

Lemma scan_message_answers acc m r um :
  App.scan_message acc m = Some (r, um) ->
  r = default (fst acc) (answers m) /\
  um = match reported m with Some d => Some d | None => snd acc end.
Proof.
  destruct m as [role content_ usage|o]; [|discriminate].
  unfold App.scan_message, answers, reported.
  assert (Hu : (if usage_truthy usage then usage else snd acc) =
               match (if usage_truthy usage then usage else None) with
               | Some d => Some d
               | None => snd acc
               end).
  { destruct (usage_truthy usage) eqn:E; [|reflexivity].
    apply usage_truthy_Some in E as [d ->]. reflexivity. }
  rewrite <- Hu. clear Hu.
  destruct (App.is_assistant role).
  - destruct content_ as [[[|i items]|[t|ob]]|]; cbn -[App.scan_items].
    + intros [= <- <-]. done.
    + destruct (App.scan_items (i :: items)) as [found|];
        cbn -[App.scan_items]; [|discriminate].
      intros [= <- <-]. done.
    + intros [= <- <-]. done.
    + destruct (truthy ob); cbn; [discriminate|]. intros [= <- <-]. done.
    + intros [= <- <-]. done.
  - cbn. intros [= <- <-]. destruct content_ as [[?|?]|]; done.
Qed.

Lemma last_cons_default {A} (x : A) (l : list A) (d : A) :
  default d (last (x :: l)) = default x (last l).
Proof.
  revert x d. induction l as [|y l IH]; intros x d; [done|].
  change (last (x :: y :: l)) with (last (y :: l)).
  by rewrite (IH y d), (IH y x).
Qed.

Lemma scan_messages_answers ms :
  forall acc r um,
    App.scan_messages acc ms = Some (r, um) ->
    r = default (fst acc) (last (omap answers ms)) /\
    um = match last (omap reported ms) with
         | Some d => Some d
         | None => snd acc
         end.
Proof.
  induction ms as [|m ms IH]; intros acc r um; cbn [App.scan_messages].
  - intros [= ->]. done.
  - destruct (App.scan_message acc m) as [[r1 um1]|] eqn:E; cbn; [|discriminate].
    intros H. apply IH in H as [-> ->]. cbn [fst snd].
    apply scan_message_answers in E as [-> ->]. cbn [omap list_omap].
    split.
    + destruct (answers m) as [t|]; cbn [default]; [|done].
      by rewrite last_cons_default.
    + destruct (reported m) as [d|]; [|done].
      destruct (omap reported ms) as [|y l] eqn:El; [done|].
      change (last (d :: y :: l)) with (last (y :: l)).
      destruct (last (y :: l)) eqn:E2; [done|].
      by apply last_None in E2.
Qed.

(** X3.  When the scan of the agent's messages succeeds, the response the
    handler keeps is the first text block of the last assistant message
    that has one, and the empty string if there is none; the usage it
    takes from the messages is the one of the last message that reports a
    truthy usage. *)
Theorem response_is_last_answer ms r um :
  App.scan_messages (EmptyString, None) ms = Some (r, um) ->
  r = default EmptyString (last (omap answers ms)) /\
  um = last (omap reported ms).
Proof.
  intros H. apply scan_messages_answers in H as [-> ->]. split; [done|].
  by destruct (last (omap reported ms)).
Qed.

Lemma response_is_last_answer_witness :
  "You spent $12." =
  default EmptyString
    (last (omap answers
             [text_message "assistant" "{text: Looking it up.}"
                "Looking it up." None;
              text_message "user" "{text: ok}" "ok" None;
              text_message "assistant" "{text: You spent $12.}"
                "You spent $12." None])).
Proof.
  exact (proj1 (response_is_last_answer
                  [text_message "assistant" "{text: Looking it up.}"
                     "Looking it up." None;
                   text_message "user" "{text: ok}" "ok" None;
                   text_message "assistant" "{text: You spent $12.}"
                     "You spent $12." None]
                  "You spent $12." None eq_refl)).
Defined.

(** X4.  Which usage a turn is charged for: the [usage] attribute of the
    response wins over the one of the agent, which wins over the usage
    found in the messages.  An attribute that is present but falsy still
    wins: the usage found in the messages is then dropped and the turn is
    charged the estimate. *)
Theorem usage_precedence sp o resp um0 :
  App.scan_messages (EmptyString, None) (App.agent_messages_after o)
    = Some (resp, um0) ->
  let charge := App.turn_tokens sp (App.agent_messages_after o) resp in
  (forall u, App.response_usage o = Some u ->
     App.charged sp o = Some (charge u)) /\
  (forall u, App.response_usage o = None -> App.agent_usage o = Some u ->
     App.charged sp o = Some (charge u)) /\
  (App.response_usage o = None -> App.agent_usage o = None ->
     App.charged sp o = Some (charge um0)) /\
  (forall u, App.response_usage o = Some u -> usage_truthy u = false ->
     App.charged sp o =
     Some (calculate_conversation_tokens (App.agent_messages_after o) sp,
           estimate_tokens_from_text (Text resp))).
Proof.
  intros Hscan charge. unfold App.charged. rewrite Hscan. cbn [mbind option_bind fst snd].
  unfold App.select_usage. repeat split.
  - intros u ->. reflexivity.
  - intros u -> ->. reflexivity.
  - intros -> ->. reflexivity.
  - intros u -> Hu. cbn [from_option id]. unfold App.turn_tokens.
    rewrite Hu. reflexivity.
Qed.

Lemma usage_precedence_witness :
  let ms := [text_message "assistant" "{text: You spent $12.}" "You spent $12."
               (Some (<["inputTokens" := 1200]> (<["outputTokens" := 80]> ∅)))] in
  App.charged "You are a FinOps AI Assistant"
    {| App.agent_messages_after := ms;
       App.agent_usage := None;
       App.response_usage := Some None |}
  = Some (calculate_conversation_tokens ms "You are a FinOps AI Assistant",
          estimate_tokens_from_text (Text "You spent $12.")).
Proof.
  intros ms.
  exact (proj2 (proj2 (proj2
           (usage_precedence "You are a FinOps AI Assistant"
              {| App.agent_messages_after := ms;
                 App.agent_usage := None;
                 App.response_usage := Some None |}
              "You spent $12."
              (Some (<["inputTokens" := 1200]> (<["outputTokens" := 80]> ∅)))
              eq_refl))) None eq_refl eq_refl).
Defined.

Lemma chat_turn_sync sp prompt o s s' shown :
  App.chat_turn sp prompt o s = Some (s', shown) ->
  agent_messages <$> agent s' = Some (App.agent_messages_after o) /\
  start_index s' = Z.of_nat (length (App.agent_messages_after o)) /\
  is_Some (total_tokens s') /\ is_Some (total_cost s') /\
  is_Some (total_requests s').
Proof.
  destruct s as [ms [a|] bc ac si tt tc tr out];
    unfold App.chat_turn; cbn; [|discriminate].
  destruct (App.scan_messages _ _) as [[resp um0]|]; cbn; [|discriminate].
  intros H.
  unfold App.account_usage, App.add_totals, App.ensure_totals in H.
  destruct (usage_truthy (App.select_usage o um0));
    destruct tt as [t|]; cbn in H;
    try (destruct tc as [c|]; cbn in H; [|discriminate];
         destruct tr as [r|]; cbn in H; [|discriminate]);
    injection H as <- _; cbn; repeat split; eauto.
Qed.

(** X5.  A turn that completes adds exactly two entries to the chat
    history, the prompt and then the response, makes the agent's messages
    the ones the agent returned, sets [start_index] to their number,
    leaves all three ledger keys present, and touches neither the agent's
    model and tools nor the stored tool-server clients. *)
Theorem chat_turn_bookkeeping sp prompt o s s' shown :
  App.chat_turn sp prompt o s = Some (s', shown) ->
  exists resp um0,
    App.scan_messages (EmptyString, None) (App.agent_messages_after o)
      = Some (resp, um0) /\
    messages s' =
      messages s ++
      [{| role := Some "user"; type := None; content := prompt |};
       {| role := Some "assistant"; type := None; content := resp |}] /\
    agent_messages <$> agent s' = Some (App.agent_messages_after o) /\
    start_index s' = Z.of_nat (length (App.agent_messages_after o)) /\
    is_Some (total_tokens s') /\ is_Some (total_cost s') /\
    is_Some (total_requests s') /\
    model <$> agent s' = model <$> agent s /\
    tools <$> agent s' = tools <$> agent s /\
    billing_mcp_client s' = billing_mcp_client s /\
    aws_api_mcp_client s' = aws_api_mcp_client s /\
    output s' = output s.
Proof.
  destruct s as [ms [a|] bc ac si tt tc tr out];
    unfold App.chat_turn; cbn; [|discriminate].
  destruct (App.scan_messages _ _) as [[resp um0]|]; cbn; [|discriminate].
  intros H. exists resp, um0. split; [reflexivity|].
  unfold App.account_usage, App.add_totals, App.ensure_totals in H.
  destruct (usage_truthy (App.select_usage o um0));
    destruct tt as [t|]; cbn in H;
    try (destruct tc as [c|]; cbn in H; [|discriminate];
         destruct tr as [r|]; cbn in H; [|discriminate]);
    injection H as <- _; cbn; rewrite <- ?app_assoc; repeat split; eauto.
Qed.

Lemma chat_turn_bookkeeping_witness :
  exists s' shown,
    App.chat_turn "You are a FinOps AI Assistant" "What did I spend?"
      {| App.agent_messages_after :=
           [text_message "assistant" "{text: You spent $12.}"
              "You spent $12." None];
         App.agent_usage := None;
         App.response_usage := None |}
      ready = Some (s', shown) /\
    start_index s' = 1 /\
    messages s' =
      [{| role := Some "user"; type := None; content := "What did I spend?" |};
       {| role := Some "assistant"; type := None; content := "You spent $12." |}].
Proof.
  eexists _, _. split; [reflexivity|].
  destruct (chat_turn_bookkeeping "You are a FinOps AI Assistant"
              "What did I spend?"
              {| App.agent_messages_after :=
                   [text_message "assistant" "{text: You spent $12.}"
                      "You spent $12." None];
                 App.agent_usage := None;
                 App.response_usage := None |}
              ready _ _ eq_refl)
    as (resp & um0 & Hscan & Hm & _ & Hi & _).
  injection Hscan as <- _. split; [exact Hi | exact Hm].
Defined.



End TurnFacts.

(** ** The sidebar: usage section and control buttons ([app.py], lines
    500-559; [app_streaming.py], lines 433-440) *)

Module SidebarFacts.
Import Estimator Session Claims Observations.

Lemma inject_Z_nonzero r : 0 < r -> ~ (inject_Z r == 0)%Q.
Proof. intros H. unfold Qeq. cbn. lia. Qed.


(** X7.  Whenever the sidebar shows its projections, the average cost
    times the number of requests is the total cost, the daily projection
    is 24 times the average cost of a request, and the monthly projection
    is 30 times the daily one, that is 720 times that average: the number
    of requests made cancels out of both. *)
Theorem projections_from_average s p pr :
  Sidebar.usage_section s = Some (Some p) ->
  Sidebar.shown_projection p = Some pr ->
  (Sidebar.avg_cost p * inject_Z (Sidebar.shown_requests p)
     == Sidebar.shown_cost p)%Q /\
  (Sidebar.daily_projection pr == 24 * Sidebar.avg_cost p)%Q /\
  (Sidebar.monthly_projection pr == 30 * Sidebar.daily_projection pr)%Q /\
  (Sidebar.monthly_projection pr == 720 * Sidebar.avg_cost p)%Q.
Proof.
  unfold Sidebar.usage_section.
  destruct (total_requests s) as [r|]; [|discriminate].
  destruct (0 <? r) eqn:Hr; [|discriminate]. apply Z.ltb_lt in Hr.
  destruct (total_tokens s) as [t|]; cbn; [|discriminate].
  destruct (total_cost s) as [c|]; cbn; [|discriminate].
  pose proof (inject_Z_nonzero r Hr) as Hnz.
  destruct (Sidebar.Qgt_bool c 0); intros [= <-]; cbn; [|discriminate].
  intros [= <-]; cbn. rewrite Z.max_r by lia.
  repeat split; field; exact Hnz.
Qed.

Lemma projections_from_average_witness :
  let s := set_totals (Some 5000) (Some (3 # 100)%Q) (Some 4) ready in
  exists p pr,
    Sidebar.usage_section s = Some (Some p) /\
    Sidebar.shown_projection p = Some pr /\
    (Sidebar.daily_projection pr == 24 * Sidebar.avg_cost p)%Q.
Proof.
  intros s. eexists _, _. split; [reflexivity|]. split; [reflexivity|].
  exact (proj1 (proj2 (projections_from_average s _ _ eq_refl eq_refl))).
Defined.



(** X9.  The two control buttons act on disjoint parts of the session.
    "Reset Stats" removes the three ledger keys and leaves the chat
    history, the agent, [start_index], the stored clients and the output
    buffer alone; "Fresh Chat" empties the chat history
    and the agent's messages, sets [start_index] to 0 and leaves the
    ledger, the agent's model and tools and the stored clients alone.
    Either button pressed twice does what it does pressed once, and the
    order in which the two are pressed does not matter. *)
Theorem controls_independent s :
  (total_tokens (App.reset_stats s) = None /\
   total_cost (App.reset_stats s) = None /\
   total_requests (App.reset_stats s) = None) /\
  (messages (App.reset_stats s) = messages s /\
   agent (App.reset_stats s) = agent s /\
   start_index (App.reset_stats s) = start_index s /\
   billing_mcp_client (App.reset_stats s) = billing_mcp_client s /\
   aws_api_mcp_client (App.reset_stats s) = aws_api_mcp_client s /\
   output (App.reset_stats s) = output s) /\
  (total_tokens (Sidebar.fresh_chat s) = total_tokens s /\
   total_cost (Sidebar.fresh_chat s) = total_cost s /\
   total_requests (Sidebar.fresh_chat s) = total_requests s /\
   model <$> agent (Sidebar.fresh_chat s) = model <$> agent s /\
   tools <$> agent (Sidebar.fresh_chat s) = tools <$> agent s /\
   billing_mcp_client (Sidebar.fresh_chat s) = billing_mcp_client s /\
   aws_api_mcp_client (Sidebar.fresh_chat s) = aws_api_mcp_client s) /\
  (messages (Sidebar.fresh_chat s) = [] /\
   agent_messages <$> agent (Sidebar.fresh_chat s)
     = (fun _ => []) <$> agent s /\
   start_index (Sidebar.fresh_chat s) = 0) /\
  App.reset_stats (App.reset_stats s) = App.reset_stats s /\
  Sidebar.fresh_chat (Sidebar.fresh_chat s) = Sidebar.fresh_chat s /\
  App.reset_stats (Sidebar.fresh_chat s) = Sidebar.fresh_chat (App.reset_stats s).
Proof.
  destruct s as [ms [a|] bc ac si tt tc tr out]; cbn; repeat split.
Qed.

(** X10.  What the sidebar shows after a button.  After "Reset Stats" it
    shows the placeholder, whatever the ledger held.  After "Fresh Chat"
    it shows the same numbers and projections as before, and no message
    about the length of the conversation. *)
Theorem sidebar_after_controls s :
  Sidebar.usage_section (App.reset_stats s) = Some None /\
  (forall p,
     Sidebar.usage_section s = Some (Some p) ->
     Sidebar.usage_section (Sidebar.fresh_chat s) =
     Some (Some {| Sidebar.shown_requests := Sidebar.shown_requests p;
                   Sidebar.shown_tokens := Sidebar.shown_tokens p;
                   Sidebar.shown_cost := Sidebar.shown_cost p;
                   Sidebar.avg_cost := Sidebar.avg_cost p;
                   Sidebar.shown_projection := Sidebar.shown_projection p;
                   Sidebar.shown_notice := None |})).
Proof.
  split; [reflexivity|].
  destruct s as [ms [a|] bc ac si tt tc tr out];
    unfold Sidebar.usage_section, Sidebar.fresh_chat; cbn;
    (destruct tr as [r|]; [|discriminate]);
    (destruct (0 <? r); [|discriminate]);
    (destruct tt as [t|]; cbn; [|discriminate]);
    (destruct tc as [c|]; cbn; [|discriminate]);
    destruct (Sidebar.Qgt_bool c 0); intros p [= <-]; reflexivity.
Qed.

Lemma sidebar_after_controls_witness :
  let s := set_totals (Some 5000) (Some (3 # 100)%Q) (Some 4) ready in
  exists p,
    Sidebar.usage_section (Sidebar.fresh_chat s) = Some (Some p) /\
    Sidebar.shown_requests p = 4 /\ Sidebar.shown_notice p = None.
Proof.
  intros s. eexists. split.
  - exact (proj2 (sidebar_after_controls s) _ eq_refl).
  - split; reflexivity.
Defined.

Lemma initialize_agent_frame env sp o s :
  messages (App.initialize_agent env sp o s) = messages s /\
  start_index (App.initialize_agent env sp o s) = start_index s /\
  total_tokens (App.initialize_agent env sp o s) = total_tokens s /\
  total_cost (App.initialize_agent env sp o s) = total_cost s /\
  total_requests (App.initialize_agent env sp o s) = total_requests s /\
  output (App.initialize_agent env sp o s) = output s.
Proof.
  unfold App.initialize_agent.
  destruct (agent s); [done|].
  destruct o as [sr ar bs aws rr lr]; cbn.
  destruct sr; [done|].
  destruct (App.enable_aws_api env), ar, bs, aws, rr, lr; cbn;
    repeat match goal with
           | |- context [match ?l with [] => _ | _ :: _ => _ end] => destruct l
           end; done.
Qed.

(** X11.  An invariant of the buffered page: the three ledger keys are
    present together or absent together, and [start_index] is the number
    of messages the agent holds (0 while there is no agent).  It holds
    before the page has run, every action of the page keeps it, and a
    turn that completes establishes it whatever the state before. *)
Theorem page_invariant_preserved :
  page_invariant fresh /\
  (forall env sp o s,
     page_invariant s -> page_invariant (App.initialize_agent env sp o s)) /\
  (forall sp prompt o s s' shown,
     App.chat_turn sp prompt o s = Some (s', shown) -> page_invariant s') /\
  (forall s, page_invariant s -> page_invariant (App.reset_stats s)) /\
  (forall s, page_invariant s -> page_invariant (Sidebar.fresh_chat s)).
Proof.
  unfold page_invariant, ledger_consistent. repeat split.
  - destruct (initialize_agent_frame env sp o s) as (_ & _ & -> & -> & -> & _).
    tauto.
  - destruct (initialize_agent_frame env sp o s) as (_ & -> & _).
    destruct H as [_ ->]. destruct (agent s) as [a|] eqn:Ea.
    + unfold App.initialize_agent. rewrite Ea. rewrite Ea. reflexivity.
    + rewrite (StartupFacts.initialize_agent_result env sp o s Ea). reflexivity.
  - apply TurnFacts.chat_turn_sync in H
      as (_ & _ & [? ->] & [? ->] & [? ->]). exact I.
  - apply TurnFacts.chat_turn_sync in H as (Ha & -> & _).
    destruct (agent s') as [a|]; [|discriminate]. by injection Ha as ->.
  - destruct H as [_ H]. destruct s as [ms [a|] bc ac si tt tc tr out]; exact H.
  - destruct H as [H _]. destruct s as [ms [a|] bc ac si tt tc tr out]; exact H.
  - destruct s as [ms [a|] bc ac si tt tc tr out]; reflexivity.
Qed.

Lemma page_invariant_preserved_witness :
  page_invariant
    (Sidebar.fresh_chat
       (App.initialize_agent ∅ "You are a FinOps AI Assistant"
          {| App.setup_raises := false; App.aws_client_raises := false;
             App.billing_start := App.Started [Tool "cost_explorer"];
             App.aws_api_start := App.EnterRaises;
             App.report_raises := false; App.load_raises := false |}
          fresh)).
Proof.
  destruct page_invariant_preserved as (H0 & Hinit & _ & _ & Hfresh).
  apply Hfresh, Hinit, H0.
Defined.

End SidebarFacts.

(** ** The environment of the tool servers ([app.py], lines 334-352;
    [app_streaming.py], lines 294-312) *)

Module McpEnvFacts.
Import Session.

Lemma pass_through_id environ m k :
  m !! k = environ !! k -> McpEnv.pass_through environ m k = m.
Proof.
  intros H. unfold McpEnv.pass_through.
  destruct (McpEnv.getenv_truthy environ k); [|reflexivity].
  destruct (environ !! k) as [v|] eqn:E; [|reflexivity].
  by apply insert_id.
Qed.

(** X12.  Without assumed-role credentials the tool servers get the
    process environment with exactly two variables set: the log level,
    always ERROR, and the region, taken from AWS_DEFAULT_REGION or else the
    deployment region.  The loop that passes the AWS credentials through
    changes nothing, and every other variable, the credentials included,
    reaches the servers as the process has it. *)
Theorem mcp_env_without_role environ :
  McpEnv.mcp_env environ None =
    <["AWS_REGION" := default McpEnv.region (environ !! "AWS_DEFAULT_REGION")]>
      (<["FASTMCP_LOG_LEVEL" := "ERROR"]> environ) /\
  (forall k, k <> "FASTMCP_LOG_LEVEL" -> k <> "AWS_REGION" ->
     McpEnv.mcp_env environ None !! k = environ !! k).
Proof.
  assert (E : McpEnv.mcp_env environ None =
    <["AWS_REGION" := default McpEnv.region (environ !! "AWS_DEFAULT_REGION")]>
      (<["FASTMCP_LOG_LEVEL" := "ERROR"]> environ)).
  { unfold McpEnv.mcp_env, getenv. cbn [fold_left].
    rewrite (pass_through_id _ _ "AWS_ACCESS_KEY_ID")
      by (by rewrite !lookup_insert_ne by done).
    rewrite (pass_through_id _ _ "AWS_SECRET_ACCESS_KEY")
      by (by rewrite !lookup_insert_ne by done).
    rewrite (pass_through_id _ _ "AWS_SESSION_TOKEN")
      by (by rewrite !lookup_insert_ne by done).
    reflexivity. }
  split; [exact E|].
  intros k H1 H2. rewrite E. by rewrite !lookup_insert_ne by done.
Qed.

Lemma mcp_env_without_role_witness :
  McpEnv.mcp_env
    {[ "AWS_ACCESS_KEY_ID" := "AKIAEXAMPLE"; "FASTMCP_LOG_LEVEL" := "DEBUG" ]}
    None !! "AWS_ACCESS_KEY_ID" = Some "AKIAEXAMPLE".
Proof.
  etrans;
    [apply (proj2 (mcp_env_without_role
                     {[ "AWS_ACCESS_KEY_ID" := "AKIAEXAMPLE";
                        "FASTMCP_LOG_LEVEL" := "DEBUG" ]}));
     discriminate
    |vm_compute; reflexivity].
Defined.

(** X13.  With assumed-role credentials the three credential variables
    the tool servers see are those of the assumed role, whatever the
    process environment holds for them; the log level and the region are
    set as without a role; every other variable is passed unchanged. *)
Theorem mcp_env_with_role environ c :
  let env := McpEnv.mcp_env environ (Some c) in
  env !! "AWS_ACCESS_KEY_ID" = Some (McpEnv.AccessKeyId c) /\
  env !! "AWS_SECRET_ACCESS_KEY" = Some (McpEnv.SecretAccessKey c) /\
  env !! "AWS_SESSION_TOKEN" = Some (McpEnv.SessionToken c) /\
  env !! "FASTMCP_LOG_LEVEL" = Some "ERROR" /\
  env !! "AWS_REGION" =
    Some (default McpEnv.region (environ !! "AWS_DEFAULT_REGION")) /\
  (forall k,
     k ∉ ["AWS_ACCESS_KEY_ID"; "AWS_SECRET_ACCESS_KEY"; "AWS_SESSION_TOKEN";
          "FASTMCP_LOG_LEVEL"; "AWS_REGION"] ->
     env !! k = environ !! k).
Proof.
  cbn zeta. unfold McpEnv.mcp_env, getenv. repeat split.
  - rewrite !lookup_insert_ne by done. apply lookup_insert_eq.
  - rewrite lookup_insert_ne by done. apply lookup_insert_eq.
  - apply lookup_insert_eq.
  - rewrite !lookup_insert_ne by done. apply lookup_insert_eq.
  - rewrite !lookup_insert_ne by done. apply lookup_insert_eq.
  - intros k Hk. rewrite !not_elem_of_cons in Hk.
    destruct Hk as (? & ? & ? & ? & ? & _).
    by rewrite !lookup_insert_ne by done.
Qed.

Lemma mcp_env_with_role_witness :
  McpEnv.mcp_env {[ "HOME" := "/app"; "AWS_ACCESS_KEY_ID" := "AKIAEXAMPLE" ]}
    (Some {| McpEnv.AccessKeyId := "ASIAROLE";
             McpEnv.SecretAccessKey := "secret";
             McpEnv.SessionToken := "token" |}) !! "HOME" = Some "/app".
Proof.
  etrans;
    [apply (proj2 (proj2 (proj2 (proj2 (proj2
              (mcp_env_with_role
                 {[ "HOME" := "/app"; "AWS_ACCESS_KEY_ID" := "AKIAEXAMPLE" ]}
                 {| McpEnv.AccessKeyId := "ASIAROLE";
                    McpEnv.SecretAccessKey := "secret";
                    McpEnv.SessionToken := "token" |}))))));
     repeat (apply not_elem_of_cons; split; [discriminate|]);
     apply not_elem_of_nil
    |vm_compute; reflexivity].
Defined.

End McpEnvFacts.

(** ** Start-up and shutdown across reruns ([app.py], lines 330-493 and
    751-769; [app_streaming.py], lines 290-422 and 522-535) *)

Module LifecycleFacts.
Import Estimator Session Exn Claims Observations.

Lemma initialize_agent_present env sp o s :
  is_Some (agent s) -> App.initialize_agent env sp o s = s.
Proof. intros [a Ha]. unfold App.initialize_agent. by rewrite Ha. Qed.

Lemma streaming_initialize_agent_present env sp o s :
  is_Some (agent s) -> AppStreaming.initialize_agent env sp o s = s.
Proof. intros [a Ha]. unfold AppStreaming.initialize_agent. by rewrite Ha. Qed.

Lemma initialize_agent_is_Some env sp o s :
  is_Some (agent (App.initialize_agent env sp o s)).
Proof.
  destruct (agent s) as [a|] eqn:Ea.
  - rewrite initialize_agent_present; rewrite Ea; eauto.
  - rewrite (StartupFacts.initialize_agent_result env sp o s Ea). eauto.
Qed.

Lemma streaming_initialize_agent_is_Some env sp o s :
  is_Some (agent (AppStreaming.initialize_agent env sp o s)).
Proof.
  destruct (agent s) as [a|] eqn:Ea.
  - rewrite streaming_initialize_agent_present; rewrite Ea; eauto.
  - rewrite (StartupFacts.streaming_initialize_agent_result env sp o s Ea). eauto.
Qed.

(** X14.  Initialisation happens once per session.  When the page runs
    again, with whatever environment, prompt and tool-server behaviour,
    the initialisation block leaves the session exactly as the first run
    left it: no server is started again and the agent is not replaced.
    This holds on both pages. *)
Theorem initialize_agent_once :
  (forall env sp o env' sp' o' s,
     App.initialize_agent env' sp' o' (App.initialize_agent env sp o s)
     = App.initialize_agent env sp o s) /\
  (forall env sp o env' sp' o' s,
     AppStreaming.initialize_agent env' sp' o'
       (AppStreaming.initialize_agent env sp o s)
     = AppStreaming.initialize_agent env sp o s).
Proof.
  split; intros.
  - apply initialize_agent_present, initialize_agent_is_Some.
  - apply streaming_initialize_agent_present, streaming_initialize_agent_is_Some.
Qed.

Lemma lower_idemp s : App.lower (App.lower s) = App.lower s.
Proof.
  induction s as [|c s IH]; cbn; [reflexivity|]. rewrite IH. f_equal.
  unfold App.ascii_lower.
  destruct (Nat.leb 65 (nat_of_ascii c) && Nat.leb (nat_of_ascii c) 90)%bool eqn:E.
  - apply andb_true_iff in E as [E1 E2].
    apply Nat.leb_le in E1. apply Nat.leb_le in E2.
    rewrite nat_ascii_embedding by lia.
    destruct (Nat.leb 65 (nat_of_ascii c + 32) && Nat.leb (nat_of_ascii c + 32) 90)%bool eqn:E';
      [|reflexivity].
    apply andb_true_iff in E' as [_ E']. apply Nat.leb_le in E'. lia.
  - rewrite E. reflexivity.
Qed.

(** X15.  The switch of the AWS API server.  The server is enabled when
    ENABLE_AWS_API_SERVER is unset or reads "true" in any mix of upper
    and lower case, and disabled by every other value.  When it is
    disabled, initialisation never stores a client for it, and the agent's
    tools are those of the billing server alone. *)
Theorem aws_api_server_switch env :
  (App.enable_aws_api env = true <->
   env !! "ENABLE_AWS_API_SERVER" = None \/
   exists v, env !! "ENABLE_AWS_API_SERVER" = Some v /\ App.lower v = "true") /\
  (forall v,
     App.enable_aws_api (<["ENABLE_AWS_API_SERVER" := v]> env)
     = App.enable_aws_api (<["ENABLE_AWS_API_SERVER" := App.lower v]> env)) /\
  (forall sp o s,
     App.enable_aws_api env = false -> agent s = None ->
     let s' := App.initialize_agent env sp o s in
     aws_api_mcp_client s' = aws_api_mcp_client s /\
     tools <$> agent s' =
       Some (if init_failed o then [] else tools_of (App.billing_start o))).
Proof.
  repeat split.
  - unfold App.enable_aws_api, getenv. intros H. apply bool_decide_eq_true_1 in H.
    destruct (env !! "ENABLE_AWS_API_SERVER") as [v|]; eauto.
  - unfold App.enable_aws_api, getenv. intros [->|(v & -> & Hv)]; cbn;
      by apply bool_decide_eq_true_2.
  - intros v. unfold App.enable_aws_api, getenv. rewrite !lookup_insert_eq. cbn.
    by rewrite lower_idemp.
  - unfold App.initialize_agent. rewrite H0, H.
    destruct o as [sr ar bs aws rr lr]; cbn.
    destruct sr, bs, rr, lr; cbn;
      repeat match goal with
             | |- context [match ?l with [] => _ | _ :: _ => _ end] => destruct l
             end; reflexivity.
  - rewrite (StartupFacts.initialize_agent_result env sp o s H0). cbn.
    unfold loaded_tools. rewrite H. cbn. by rewrite app_nil_r.
Qed.

Lemma aws_api_server_switch_witness :
  let env : gmap string string := {[ "ENABLE_AWS_API_SERVER" := "False" ]} in
  let s' := App.initialize_agent env "You are a FinOps AI Assistant"
              {| App.setup_raises := false; App.aws_client_raises := false;
                 App.billing_start := App.Started [Tool "cost_explorer"];
                 App.aws_api_start := App.Started [Tool "call_aws"];
                 App.report_raises := false; App.load_raises := false |}
              fresh in
  aws_api_mcp_client s' = None /\
  tools <$> agent s' = Some [Tool "cost_explorer"].
Proof.
  intros env s'.
  exact (proj2 (proj2 (aws_api_server_switch env))
           "You are a FinOps AI Assistant"
           {| App.setup_raises := false; App.aws_client_raises := false;
              App.billing_start := App.Started [Tool "cost_explorer"];
              App.aws_api_start := App.Started [Tool "call_aws"];
              App.report_raises := false; App.load_raises := false |}
           fresh eq_refl eq_refl).
Defined.

Lemma guarded_close_exits exit_raises c ok_msg err_msg :
  exits (trace (try_except
                  (App.client_exit exit_raises c ;; print ok_msg)
                  (fun e => print (err_msg +:+ e)))) = [c].
Proof.
  unfold App.client_exit, try_except, bind, print, trace.
  destruct (exit_raises c); reflexivity.
Qed.

Lemma exits_app tr1 tr2 : exits (tr1 ++ tr2) = exits tr1 ++ exits tr2.
Proof. unfold exits. apply omap_app. Qed.

Lemma guarded_close_returns exit_raises c ok_msg err_msg :
  result (try_except
            (App.client_exit exit_raises c ;; print ok_msg)
            (fun e => print (err_msg +:+ e))) = Returned tt.
Proof.
  unfold App.client_exit, try_except, bind, print, result.
  destruct (exit_raises c); reflexivity.
Qed.

Lemma cleanup_trace_exits exit_raises s :
  exits (trace (App.cleanup_mcp_clients exit_raises s)) = stored_clients s.
Proof.
  unfold stored_clients, App.cleanup_mcp_clients.
  destruct (billing_mcp_client s) as [b|], (aws_api_mcp_client s) as [a|];
    cbn [option_list app].
  - pose proof (guarded_close_returns exit_raises b
                  "Billing MCP client session closed"
                  "Error closing Billing MCP client: ") as Hr.
    destruct (ShutdownFacts.bind_returned _
                (fun _ => try_except
                   (App.client_exit exit_raises a ;;
                    print "AWS API MCP client session closed")
                   (fun e => print ("Error closing AWS API MCP client: " +:+ e)))
                tt Hr) as [_ ->].
    by rewrite exits_app, !guarded_close_exits.
  - pose proof (guarded_close_returns exit_raises b
                  "Billing MCP client session closed"
                  "Error closing Billing MCP client: ") as Hr.
    destruct (ShutdownFacts.bind_returned _ (fun _ => ret tt) tt Hr) as [_ ->].
    by rewrite exits_app, guarded_close_exits.
  - destruct (ShutdownFacts.bind_returned (ret tt)
                (fun _ => try_except
                   (App.client_exit exit_raises a ;;
                    print "AWS API MCP client session closed")
                   (fun e => print ("Error closing AWS API MCP client: " +:+ e)))
                tt eq_refl) as [_ ->].
    by rewrite exits_app, guarded_close_exits.
  - reflexivity.
Qed.

(** X16.  Shutdown calls [__exit__] on exactly the clients the session
    has stored, once each, the billing client first, and on nothing else,
    whether or not a call raises.  With no stored client it does and
    prints nothing.  The streaming page does the same for its one
    client. *)
Theorem cleanup_exits_stored exit_raises s :
  exits (trace (App.cleanup_mcp_clients exit_raises s)) = stored_clients s /\
  (stored_clients s = [] ->
   trace (App.cleanup_mcp_clients exit_raises s) = []) /\
  exits (trace (AppStreaming.cleanup_mcp_clients exit_raises s))
    = option_list (billing_mcp_client s).
Proof.
  split; [apply cleanup_trace_exits|]. split.
  - unfold stored_clients, App.cleanup_mcp_clients.
    destruct (billing_mcp_client s), (aws_api_mcp_client s);
      cbn [option_list app]; intros H; first [discriminate H | reflexivity].
  - unfold AppStreaming.cleanup_mcp_clients.
    destruct (billing_mcp_client s); [apply guarded_close_exits|reflexivity].
Qed.

Lemma cleanup_exits_stored_witness :
  trace (App.cleanup_mcp_clients (fun _ => Some "broken pipe") ready) = [].
Proof.
  apply (proj1 (proj2 (cleanup_exits_stored (fun _ => Some "broken pipe") ready))).
  reflexivity.
Defined.

Lemma start_server_clients env sp o s :
  agent s = None ->
  billing_mcp_client (App.initialize_agent env sp o s) =
    (if (negb (App.setup_raises o) && entered (App.billing_start o))%bool
     then Some billing_client else billing_mcp_client s) /\
  aws_api_mcp_client (App.initialize_agent env sp o s) =
    (if (negb (App.setup_raises o) && App.enable_aws_api env
         && negb (App.aws_client_raises o) && entered (App.aws_api_start o))%bool
     then Some aws_api_client else aws_api_mcp_client s).
Proof.
  intros Ha. unfold App.initialize_agent. rewrite Ha.
  destruct o as [sr ar bs aws rr lr]; cbn.
  destruct sr; [done|].
  destruct (App.enable_aws_api env), ar, bs, aws, rr, lr; cbn;
    repeat match goal with
           | |- context [match ?l with [] => _ | _ :: _ => _ end] => destruct l
           end; done.
Qed.

(** X17.  Start-up and shutdown fit together.  In a session that starts
    with no client stored, shutdown closes exactly the tool servers whose
    [__enter__] returned during initialisation: a server whose
    [__enter__] raised is never closed, and a server that was entered but
    then failed to list its tools is still closed.  If initialisation
    failed before the servers were started, or the AWS API server is
    disabled or its client could not be created, nothing is closed for
    it. *)
Theorem shutdown_closes_entered env sp o exit_raises s :
  agent s = None -> stored_clients s = [] ->
  exits (trace (App.cleanup_mcp_clients exit_raises
                  (App.initialize_agent env sp o s))) =
  (if (negb (App.setup_raises o) && entered (App.billing_start o))%bool
   then [billing_client] else []) ++
  (if (negb (App.setup_raises o) && App.enable_aws_api env
       && negb (App.aws_client_raises o) && entered (App.aws_api_start o))%bool
   then [aws_api_client] else []).
Proof.
  intros Ha Hs.
  rewrite cleanup_trace_exits.
  unfold stored_clients in *.
  destruct (start_server_clients env sp o s Ha) as [-> ->].
  destruct (billing_mcp_client s), (aws_api_mcp_client s); try discriminate.
  by repeat match goal with |- context [if ?b then _ else _] => destruct b end.
Qed.

Lemma shutdown_closes_entered_witness :
  exits (trace (App.cleanup_mcp_clients (fun _ => None)
                  (App.initialize_agent ∅ "You are a FinOps AI Assistant"
                     {| App.setup_raises := false; App.aws_client_raises := false;
                        App.billing_start := App.EnterRaises;
                        App.aws_api_start := App.ListRaises;
                        App.report_raises := false; App.load_raises := false |}
                     fresh))) = [aws_api_client].
Proof.
  exact (shutdown_closes_entered ∅ "You are a FinOps AI Assistant"
           {| App.setup_raises := false; App.aws_client_raises := false;
              App.billing_start := App.EnterRaises;
              App.aws_api_start := App.ListRaises;
              App.report_raises := false; App.load_raises := false |}
           (fun _ => None) fresh eq_refl eq_refl).
Defined.

End LifecycleFacts.

(** ** The streaming buffer and what is drawn from it
    ([app_streaming.py], lines 443-520) *)

Module BufferFacts.
Import Session Claims Observations StringFacts.

Lemma join_app l1 l2 : join (l1 ++ l2) = join l1 +:+ join l2.
Proof.
  induction l1 as [|x l1 IH]; cbn; [reflexivity|].
  unfold join in IH. by rewrite IH, string_app_assoc.
Qed.

Lemma join_singleton t : join [t] = t.
Proof. cbn. apply string_app_nil_r. Qed.

Lemma join_option_cons {A} (f : A -> option string) x l :
  join (omap f (x :: l)) = join (option_list (f x)) +:+ join (omap f l).
Proof.
  cbn [omap list_omap]. destruct (f x) as [t|]; [|reflexivity].
  change (option_list (Some t)) with [t].
  change (t :: omap f l) with ([t] ++ omap f l). apply join_app.
Qed.

Lemma contents_of_app ty b1 b2 :
  contents_of ty (b1 ++ b2) = contents_of ty b1 ++ contents_of ty b2.
Proof. unfold contents_of. by rewrite filter_app, fmap_app. Qed.

Lemma contents_of_singleton ty e :
  contents_of ty [e] = if decide (type e = Some ty) then [content e] else [].
Proof.
  unfold contents_of. rewrite filter_cons, filter_nil.
  by destruct (decide (type e = Some ty)).
Qed.

Lemma add_or_append_cases ty text buf :
  (AppStreaming.add_or_append ty text buf
     = buf ++ [AppStreaming.new_item ty text] /\
   forall init e, buf = init ++ [e] -> type e <> Some ty) \/
  (exists init e,
     buf = init ++ [e] /\ type e = Some ty /\
     AppStreaming.add_or_append ty text buf
       = init ++ [AppStreaming.extend text e]).
Proof.
  unfold AppStreaming.add_or_append.
  destruct (last buf) as [e|] eqn:E.
  - apply last_Some in E as [init ->]. case_bool_decide as Ht.
    + right. exists init, e. repeat split; [done|].
      rewrite length_app, Nat.add_sub. cbn [length].
      replace (length init) with (length init + 0)%nat at 1 by lia.
      by rewrite alter_app_r.
    + left. split; [done|]. intros init' e' Heq.
      apply app_inj_tail in Heq as [_ <-]. done.
  - apply last_None in E as ->. left. split; [done|].
    intros init e Heq. by destruct init.
Qed.

Lemma contents_add_same ty text buf :
  join (contents_of ty (AppStreaming.add_or_append ty text buf))
  = join (contents_of ty buf) +:+ text.
Proof.
  destruct (add_or_append_cases ty text buf)
    as [[-> _]|(init & e & -> & Ht & ->)];
    rewrite !contents_of_app, !contents_of_singleton, !join_app; cbn [type].
  - rewrite decide_True by done. cbn [content AppStreaming.new_item].
    by rewrite join_singleton.
  - rewrite !decide_True by done. rewrite !join_singleton. cbn [content].
    by rewrite string_app_assoc.
Qed.

Lemma contents_add_other ty ty' text buf :
  ty' <> ty ->
  contents_of ty' (AppStreaming.add_or_append ty text buf) = contents_of ty' buf.
Proof.
  intros Hne.
  destruct (add_or_append_cases ty text buf)
    as [[-> _]|(init & e & -> & Ht & ->)];
    rewrite !contents_of_app, !contents_of_singleton; cbn [type].
  - rewrite decide_False by (cbn; congruence). apply app_nil_r.
  - cbn. rewrite Ht. by rewrite !decide_False by congruence.
Qed.

Lemma contents_snoc_other ty ty' text buf :
  ty' <> ty ->
  contents_of ty' (buf ++ [AppStreaming.new_item ty text]) = contents_of ty' buf.
Proof.
  intros Hne. rewrite contents_of_app, contents_of_singleton.
  rewrite decide_False by (cbn; congruence). apply app_nil_r.
Qed.

Lemma callback_contents buf kw :
  let buf' := AppStreaming.custom_callback_handler buf kw in
  join (contents_of "data" buf')
    = join (contents_of "data" buf)
      +:+ join (option_list (AppStreaming.data kw)) /\
  join (contents_of "reasoning" buf')
    = join (contents_of "reasoning" buf)
      +:+ join (option_list (reasoning_fragment kw)) /\
  contents_of "tool_use" buf'
    = contents_of "tool_use" buf ++ option_list (tool_line kw).
Proof.
  cbn zeta.
  unfold AppStreaming.custom_callback_handler, reasoning_fragment, tool_line.
  destruct (AppStreaming.data kw) as [d|].
  - rewrite contents_add_same, !contents_add_other by done.
    change (option_list (Some d)) with [d].
    change (option_list None) with (@nil string).
    by rewrite join_singleton, string_app_nil_r, app_nil_r.
  - destruct (AppStreaming.tool_name_of kw) as [n|]; cbn [mbind option_bind].
    + destruct (AppStreaming.current_tool_use kw ≫= AppStreaming.input)
        as [i|]; cbn [mbind option_bind].
      * rewrite !contents_snoc_other by done.
        rewrite contents_of_app, contents_of_singleton.
        rewrite decide_True by done.
        change (option_list None) with (@nil string).
        by rewrite !string_app_nil_r.
      * change (option_list None) with (@nil string).
        by rewrite !string_app_nil_r, app_nil_r.
    + destruct (AppStreaming.reasoningText kw) as [r|].
      * rewrite contents_add_same, !contents_add_other by done.
        change (option_list (Some r)) with [r].
        change (option_list None) with (@nil string).
        by rewrite join_singleton, string_app_nil_r, app_nil_r.
      * change (option_list None) with (@nil string).
        by rewrite !string_app_nil_r, app_nil_r.
Qed.

Lemma fold_callbacks_contents events :
  forall buf,
    let buf' := fold_left AppStreaming.custom_callback_handler events buf in
    join (contents_of "data" buf')
      = join (contents_of "data" buf)
        +:+ join (omap AppStreaming.data events) /\
    join (contents_of "reasoning" buf')
      = join (contents_of "reasoning" buf)
        +:+ join (omap reasoning_fragment events) /\
    contents_of "tool_use" buf'
      = contents_of "tool_use" buf ++ omap tool_line events.
Proof.
  induction events as [|kw events IH]; intros buf; cbn zeta.
  - cbn. by rewrite !string_app_nil_r, app_nil_r.
  - cbn [fold_left].
    destruct (IH (AppStreaming.custom_callback_handler buf kw)) as (-> & -> & ->).
    destruct (callback_contents buf kw) as (-> & -> & ->).
    rewrite !join_option_cons, !string_app_assoc, <- app_assoc.
    repeat split. cbn [omap list_omap].
    by destruct (tool_line kw).
Qed.

(** X18.  Nothing the agent streams is lost or reordered.  After any
    sequence of callbacks, the text of the data entries of the buffer,
    read in order, is the concatenation of the data fragments received;
    the text of the reasoning entries is the concatenation of the
    reasoning fragments of the callbacks that carried neither data nor a
    named tool use; and the tool-use entries are, one for one and in
    order, the lines of the callbacks that carried a named tool use with
    an input and no data. *)
Theorem stream_text_preserved events :
  let buf := AppStreaming.run_callbacks events in
  join (contents_of "data" buf) = join (omap AppStreaming.data events) /\
  join (contents_of "reasoning" buf) = join (omap reasoning_fragment events) /\
  contents_of "tool_use" buf = omap tool_line events.
Proof.
  exact (fold_callbacks_contents events []).
Qed.

Lemma callback_shape buf kw :
  AppStreaming.custom_callback_handler buf kw = buf \/
  (exists x,
     AppStreaming.custom_callback_handler buf kw = buf ++ [x] /\ known_kind x) \/
  (exists init e t,
     buf = init ++ [e] /\
     AppStreaming.custom_callback_handler buf kw
       = init ++ [AppStreaming.extend t e]).
Proof.
  unfold AppStreaming.custom_callback_handler.
  destruct (AppStreaming.data kw) as [d|].
  - destruct (add_or_append_cases "data" d buf)
      as [[-> _]|(init & e & -> & _ & ->)].
    + right; left. eexists. split; [reflexivity|]. split; cbn; eauto.
    + right; right. eauto.
  - destruct (AppStreaming.tool_name_of kw) as [n|].
    + destruct (AppStreaming.current_tool_use kw ≫= AppStreaming.input) as [i|].
      * right; left. eexists. split; [reflexivity|]. split; cbn; eauto.
      * by left.
    + destruct (AppStreaming.reasoningText kw) as [r|]; [|by left].
      destruct (add_or_append_cases "reasoning" r buf)
        as [[-> _]|(init & e & -> & _ & ->)].
      * right; left. eexists. split; [reflexivity|]. split; cbn; eauto.
      * right; right. eauto.
Qed.

Lemma grown_refl e : grown e e.
Proof.
  repeat split. exists EmptyString. by rewrite string_app_nil_r.
Qed.

Lemma grown_trans e1 e2 e3 : grown e1 e2 -> grown e2 e3 -> grown e1 e3.
Proof.
  intros (R1 & T1 & t1 & C1) (R2 & T2 & t2 & C2).
  repeat split; [congruence..|].
  exists (t1 +:+ t2). by rewrite C2, C1, string_app_assoc.
Qed.

Lemma extends_refl buf : extends buf buf.
Proof.
  split; [done|]. split; [|done]. intros i e H. exists e. split; [done|].
  apply grown_refl.
Qed.

Lemma extends_trans b1 b2 b3 : extends b1 b2 -> extends b2 b3 -> extends b1 b3.
Proof.
  intros (L1 & G1 & F1) (L2 & G2 & F2). split; [lia|]. split.
  - intros i e H. destruct (G1 i e H) as (e' & H' & Hg).
    destruct (G2 i e' H') as (e'' & H'' & Hg').
    exists e''. split; [done|]. by eapply grown_trans.
  - intros i Hi. rewrite F2 by lia. by apply F1.
Qed.

Lemma callback_extends buf kw :
  extends buf (AppStreaming.custom_callback_handler buf kw) /\
  (length (AppStreaming.custom_callback_handler buf kw) <= S (length buf))%nat.
Proof.
  destruct (callback_shape buf kw)
    as [->|[(x & -> & _)|(init & e & t & -> & ->)]]; unfold extends.
  - split; [apply extends_refl|lia].
  - rewrite length_app. cbn [length]. split; [|lia].
    split; [lia|]. split.
    + intros i e H. exists e. split; [|apply grown_refl].
      by apply lookup_app_l_Some.
    + intros i Hi. apply lookup_app_l. lia.
  - rewrite !length_app. cbn [length]. split; [|lia].
    split; [lia|]. split.
    + intros i x H. apply lookup_app_Some in H as [H|[Hi H]].
      * exists x. split; [by apply lookup_app_l_Some|apply grown_refl].
      * destruct (i - length init)%nat as [|k] eqn:Ek; [|done].
        injection H as <-. exists (AppStreaming.extend t e). split.
        -- apply lookup_app_Some. right. split; [done|]. by rewrite Ek.
        -- repeat split. by exists t.
    + intros i Hi. rewrite !lookup_app_l by lia. done.
Qed.

Lemma fold_callbacks_extends events :
  forall buf,
    extends buf (fold_left AppStreaming.custom_callback_handler events buf) /\
    (length (fold_left AppStreaming.custom_callback_handler events buf)
     <= length buf + length events)%nat.
Proof.
  induction events as [|kw events IH]; intros buf; cbn [fold_left length].
  - split; [apply extends_refl|lia].
  - destruct (IH (AppStreaming.custom_callback_handler buf kw)) as [He Hl].
    destruct (callback_extends buf kw) as [He' Hl'].
    split; [by eapply extends_trans|lia].
Qed.

(** X19.  The streaming buffer is append-only.  Further callbacks never
    remove an entry, never change the kind of an entry and never change
    text already received: every entry stays at its index and its text
    only grows at the end, all entries but the last are exactly as they
    were, and each callback adds at most one entry. *)
Theorem buffer_append_only events more :
  extends (AppStreaming.run_callbacks events)
    (AppStreaming.run_callbacks (events ++ more)) /\
  (length (AppStreaming.run_callbacks (events ++ more))
   <= length (AppStreaming.run_callbacks events) + length more)%nat /\
  (length (AppStreaming.run_callbacks events) <= length events)%nat.
Proof.
  unfold AppStreaming.run_callbacks. rewrite fold_left_app.
  destruct (fold_callbacks_extends more
              (fold_left AppStreaming.custom_callback_handler events []))
    as [He Hl].
  destruct (fold_callbacks_extends events []) as [_ Hl0].
  split; [exact He|]. split; [exact Hl|]. cbn [length] in Hl0. lia.
Qed.

Lemma callback_known_kind buf kw :
  Forall known_kind buf ->
  Forall known_kind (AppStreaming.custom_callback_handler buf kw).
Proof.
  intros H.
  destruct (callback_shape buf kw)
    as [->|[(x & -> & Hx)|(init & e & t & -> & ->)]]; [done| |].
  - apply Forall_app. split; [done|]. by apply Forall_singleton.
  - apply Forall_app in H as [Hi He].
    apply (proj1 (Forall_singleton _ _)) in He.
    apply Forall_app. split; [done|]. apply Forall_singleton.
    destruct He as [Hr Hk]. split; [exact Hr|exact Hk].
Qed.

Lemma run_callbacks_known_kind events :
  Forall known_kind (AppStreaming.run_callbacks events).
Proof.
  unfold AppStreaming.run_callbacks.
  assert (H : forall buf, Forall known_kind buf ->
            Forall known_kind
              (fold_left AppStreaming.custom_callback_handler events buf)).
  { induction events as [|kw events IH]; intros buf Hb; [done|].
    cbn [fold_left]. by apply IH, callback_known_kind. }
  by apply H.
Qed.

Lemma display_known_kind item :
  known_kind item ->
  exists w,
    StreamingDisplay.display_item item = Some [w] /\
    StreamingDisplay.display_message (as_assistant item) = Some ("assistant", w).
Proof.
  destruct item as [r ty c]. intros [_ Hty]. cbn in Hty.
  unfold StreamingDisplay.display_item, StreamingDisplay.display_message,
    as_assistant, StreamingDisplay.clean_markdown_text.
  destruct Hty as [-> | [-> | ->]]; cbn; eexists; split; reflexivity.
Qed.

Lemma display_known_buffer buf :
  Forall known_kind buf ->
  exists ws,
    StreamingDisplay.display_output buf = Some ws /\
    StreamingDisplay.display_messages (as_assistant <$> buf)
      = Some (pair "assistant" <$> ws) /\
    length ws = length buf.
Proof.
  unfold StreamingDisplay.display_output, StreamingDisplay.display_messages.
  induction 1 as [|item buf Hitem _ (ws & Ho & Hm & Hl)].
  - exists []. done.
  - destruct (display_known_kind item Hitem) as (w & Hi & Hmsg).
    exists (w :: ws). cbn [fmap list_fmap mapM].
    rewrite Hi, Hmsg. cbn [mbind option_bind].
    destruct (mapM StreamingDisplay.display_item buf) as [drawn|];
      [|discriminate].
    injection Ho as <-. cbn [mbind option_bind mret option_ret].
    fold (as_assistant <$> buf) in *. rewrite Hm. cbn.
    split; [done|]. split; [done|]. cbn in Hl. by rewrite Hl.
Qed.

(** X20.  On the streaming page a rerun redraws what was drawn live.
    After a turn, the entries the turn added to the chat history are
    redrawn as one user bubble with the prompt followed by one assistant
    bubble per buffer entry, and each of these shows the same widget with
    the same text as the live display of the buffer showed: code for a
    tool use, markdown for data and for reasoning.  Neither display
    raises. *)
Theorem replay_matches_live prompt events s s' :
  AppStreaming.chat_turn prompt events s = Some s' ->
  exists ws,
    StreamingDisplay.display_output (output s') = Some ws /\
    StreamingDisplay.display_messages (drop (length (messages s)) (messages s'))
      = Some (("user", StreamingDisplay.Markdown prompt)
              :: (pair "assistant" <$> ws)) /\
    length ws = length (output s').
Proof.
  intros H. apply StreamingFacts.streaming_turn_output in H as [-> ->].
  rewrite drop_app_length.
  destruct (display_known_buffer _ (run_callbacks_known_kind events))
    as (ws & Ho & Hm & Hl).
  exists ws. split; [done|]. split; [|done].
  unfold StreamingDisplay.display_messages in *.
  cbn [app mapM]. unfold as_assistant in Hm.
  change (map ?f ?l) with (f <$> l). rewrite Hm. reflexivity.
Qed.

Lemma replay_matches_live_witness :
  exists s',
    AppStreaming.chat_turn "What did I spend?"
      [reasoning_event "Check the bill."; tool_event "cost_explorer" "{}";
       data_event "You spent "; data_event "$12."]
      ready = Some s' /\
    StreamingDisplay.display_messages (messages s')
    = Some [("user", StreamingDisplay.Markdown "What did I spend?");
            ("assistant", StreamingDisplay.Markdown "Check the bill.");
            ("assistant",
             StreamingDisplay.Code "Using tool: cost_explorer with args: {}");
            ("assistant", StreamingDisplay.Markdown "You spent $12.")].
Proof.
  eexists. split; [reflexivity|].
  destruct (replay_matches_live "What did I spend?"
              [reasoning_event "Check the bill."; tool_event "cost_explorer" "{}";
               data_event "You spent "; data_event "$12."]
              ready _ eq_refl) as (ws & Ho & Hm & _).
  injection Ho as <-. exact Hm.
Defined.

End BufferFacts.

(** ** Signs and growth of what a turn is charged ([app.py], lines
    628-690) *)

Module ChargeFacts.
Import Estimator Session Claims Observations.

Lemma request_cost_le i o i' o' :
  i <= i' -> o <= o' -> (App.request_cost i o <= App.request_cost i' o')%Q.
Proof.
  intros Hi Ho. rewrite !LedgerFacts.request_cost_formula.
  unfold Qle. cbn. lia.
Qed.

(** X21.  The cost of a request grows with its token counts: more input
    or output tokens never cost less.  A turn charged by the estimator is
    charged non-negative token counts, at least the estimate of the system
    prompt on the input side, and a non-negative cost. *)
Theorem request_cost_monotone :
  (forall i o i' o',
     i <= i' -> o <= o' ->
     (App.request_cost i o <= App.request_cost i' o')%Q) /\
  (forall sp ms resp um,
     usage_truthy um = false ->
     let charge := App.turn_tokens sp ms resp um in
     estimate_tokens_from_text (Text sp) <= fst charge /\
     0 <= fst charge /\ 0 <= snd charge /\
     (0 <= App.request_cost (fst charge) (snd charge))%Q).
Proof.
  split; [exact request_cost_le|].
  intros sp ms resp um Hum. unfold App.turn_tokens. rewrite Hum. cbn [fst snd].
  pose proof (EstimatorBounds.estimate_nonneg (Text sp)) as Hsp.
  pose proof (EstimatorBounds.estimate_nonneg (Text resp)) as Hresp.
  pose proof (EstimatorBounds.conversation_tokens_lower ms sp) as Hge.
  repeat split; try lia.
  apply Qle_trans with (App.request_cost 0 0);
    [vm_compute; discriminate | apply request_cost_le; lia].
Qed.

Lemma request_cost_monotone_witness :
  (App.request_cost 1200 80 <= App.request_cost 1500 80)%Q.
Proof.
  apply (proj1 request_cost_monotone); vm_compute; discriminate.
Defined.

End ChargeFacts.
